(** * locator-yui: the plugin of [lib/plugin.js]

    A shallow embedding of [PluginClass.prototype] and the properties of its
    registry, of the build-set resolver [_buildsInBundle], of the loader
    metadata compiler [_getLoaderData] and of the [bundleUpdated] pipeline.

    Conventions of the embedding.
    - JavaScript strings are [string]; the default [Array.prototype.sort]
      (comparison of the elements as strings) is the sort for the
      lexicographic order [String.le].
    - A JavaScript object used as a dictionary is a [gmap string _]; an object
      used as a set of keys ([builds] in [_buildsInBundle]) is a
      [gset string].  Keys are taken to be ordinary property names: bundle
      names and file paths, not names inherited from [Object.prototype].
    - A value that the code only tests for truthiness is an [option], or a
      [Loaded] where the code can hand back two different falsy values.
    - Mutation of [this._bundles] and of the bundle is explicit state passing.
    - The collaborators that [plugin.js] requires ([path], [./shifter],
      [./builder], [./utils] and the locator [api]) are interfaces, given as
      type classes. *)

From Stdlib Require Import ZArith Ascii String List.
From stdpp Require Import base option gmap strings list sorting fin_maps fin_sets.

#[local] Set Warnings "-clear-no-such-hyp".

Local Open Scope Z_scope.
Local Open Scope string_scope.

(** ** JavaScript primitives used by the plugin *)

Module Js.

(** [arr.sort()] on an array of strings. *)
Definition sort (l : list string) : list string := merge_sort String.le l.

(** [(arr && arr.sort()) || []]: an array, even an empty one, is truthy. *)
Definition sortOrEmpty (arr : option (list string)) : list string :=
  match arr with
  | Some l => sort l
  | None => []
  end.

(** [s.indexOf(search)]: position of the first occurrence, or -1. *)
Definition indexOf (s search : string) : Z :=
  match String.index 0 search s with
  | Some n => Z.of_nat n
  | None => -1
  end.

(** The two falsy values that flow out of [_getLoaderData]. *)
Inductive Falsy : Set := undefined | zero.

(** Truthiness of a string. *)
Definition truthy (s : string) : bool := negb (bool_decide (s = "")).

(** [s.charAt(s.length - 1)]; the empty string when [s] is empty. *)
Fixpoint lastChar (s : string) : string :=
  match s with
  | EmptyString => ""
  | String c EmptyString => String c EmptyString
  | String _ rest => lastChar rest
  end.

End Js.

(** ** Data model *)

(** The [config] of one build variant; the plugin reads only [affinity]. *)
Record Config := mkConfig { affinity : option string }.

(** One entry of [mod.builds]. *)
Record Build := mkBuild { config : option Config }.

(** The module information produced by the shifter checks. *)
Record ModRecord := mkMod {
  name : string;
  buildfile : string;
  builds : gmap string Build
}.

(** [this._bundles]: bundle name, then cache key, to module information. *)
Abbreviation Registry := (gmap string (gmap string ModRecord)).

(** An entry of a loader manifest: a module of the bundle, or the synthetic
    entry that [_createClientLoaderData] adds for the meta module. *)
Inductive JsonEntry :=
| ModuleEntry (m : ModRecord)
| MetaEntry (group : string) (affinity : string).

Abbreviation Json := (gmap string JsonEntry).

(** [obj.data] of the meta-module builder. *)
Record LoaderData := mkLoaderData { json : Json; js : string }.

(** What [_getLoaderData] returns: loader data or a falsy value. *)
Inductive Loaded :=
| Absent (why : Js.Falsy)
| Present (data : LoaderData).

(** [bundle.yui] *)
Record Yui := mkYui {
  server : option Json;
  client : option Json;
  metaModuleFullpath : option string;
  metaModuleName : option string
}.

(** The bundle of locator; [bundleName] is [bundle.name]. *)
Record Bundle := mkBundle {
  bundleName : string;
  buildDirectory : string;
  yui : option Yui
}.

Definition emptyYui : Yui := mkYui None None None None.

(** ** The registry: [_register] *)

Definition _register (_bundles : Registry) (bundleName cacheKey : string)
    (info : ModRecord) : Registry :=
  let inner := default ∅ (_bundles !! bundleName) in
  <[bundleName := <[cacheKey := info]> inner]> _bundles.

(** [this._bundles[bundleName] || {}] as read by [_getLoaderData]. *)
Definition bundleMeta (_bundles : Registry) (bundleName : string)
    : gmap string ModRecord :=
  default ∅ (_bundles !! bundleName).

(** ** Collaborators of the plugin *)

(** [require('path')]: the three functions of Node's path module that the
    plugin calls.  Their results depend on the platform, so the resolver is
    written over the interface; [Posix] below is the POSIX behaviour. *)
Class PathModule := {
  extname : string → string;
  basename : string → string;
  dirname : string → string
}.

(** The options handed to [shifter.shiftFiles]. *)
Record ShiftOptions := mkShiftOptions {
  buildDir : string;
  args : list string;
  cache : bool
}.

(** [require('./shifter')]: the two checks answer with module information or
    with a falsy value; [shiftFiles] calls back with an error or without. *)
Class Shifter := {
  _checkYUIModule : string → option ModRecord;
  _checkBuildFile : string → option ModRecord;
  shiftFiles : list string → ShiftOptions → option string
}.

(** [require('./builder')]: [new BuilderClass({name, group})], then
    [obj.compile(buildMeta)], then [obj.data] ([None] when it is falsy). *)
Class BuilderClass := {
  compile : string → string → gmap string ModRecord → option LoaderData
}.

(** [require('./utils')]: [evt.files] is opaque to [plugin.js]. *)
Class Utils := {
  EvtFiles : Type;
  filterFilesInBundle :
    Bundle → EvtFiles → option (Bundle → string → bool) → option (list string)
}.

(** The locator [api]: [writeFileInBundle] rejects with an error or resolves
    to the path of the new file. *)
Class LocatorApi := {
  getBundleFiles : string → option (list string);
  writeFileInBundle : string → string → string → string + option string
}.

(** What the plugin does outside the process. *)
Inductive Effect :=
| WriteFileInBundle (bundleName destPath content : string)
| ShiftFiles (files : list string) (opts : ShiftOptions).

(** ** The loader metadata compiler: [_getLoaderData] *)

Definition emptyConfig : Config := mkConfig None.

Abbreviation ModuleFilter := (option (string → Config → bool)).

(** [!filter || filter(meta[mod].name, meta[mod].builds[build].config || {})] *)
Definition passes (flt : ModuleFilter) (m : ModRecord) (b : Build) : bool :=
  match flt with
  | None => true
  | Some f => f (name m) (default emptyConfig (config b))
  end.

(** The body of the inner loop for a build that passed the filter:
    [buildMeta[mod] = buildMeta[mod] || {name, buildfile, builds: {}}] and
    [buildMeta[mod].builds[build] = meta[mod].builds[build]]. *)
Definition keepBuild (m : ModRecord) (key build : string) (b : Build)
    (buildMeta : gmap string ModRecord) : gmap string ModRecord :=
  let entry := default (mkMod (name m) (buildfile m) ∅) (buildMeta !! key) in
  <[key := mkMod (name entry) (buildfile entry) (<[build := b]> (builds entry))]>
    buildMeta.

(** [for (build in meta[mod].builds)] *)
Definition filterBuilds (flt : ModuleFilter) (key : string) (m : ModRecord)
    (buildMeta : gmap string ModRecord) : gmap string ModRecord :=
  map_fold (λ build b acc,
              if passes flt m b then keepBuild m key build b acc else acc)
           buildMeta (builds m).

(** [for (mod in meta)] *)
Definition filterMeta (flt : ModuleFilter) (meta : gmap string ModRecord)
    : gmap string ModRecord :=
  map_fold (filterBuilds flt) ∅ meta.

Definition _getLoaderData `{BuilderClass} (_bundles : Registry)
    (bundleName : string) (flt : ModuleFilter) : Loaded :=
  let meta := bundleMeta _bundles bundleName in
  let buildMeta := filterMeta flt meta in
  if decide (size buildMeta = 0%nat) then Absent Js.undefined
  else
    match compile ("loader-" +:+ bundleName) bundleName buildMeta with
    | None => Absent Js.undefined
    | Some data =>
        if decide (size (json data) = 0%nat) then Absent Js.zero
        else Present data
    end.

Definition serverFilter (_ : string) (config : Config) : bool :=
  bool_decide (affinity config ≠ Some "client").

Definition clientFilter (_ : string) (config : Config) : bool :=
  bool_decide (affinity config ≠ Some "server").

Definition _createServerLoaderData `{BuilderClass} (_bundles : Registry)
    (bundle : Bundle) : Loaded :=
  _getLoaderData _bundles (bundleName bundle) (Some serverFilter).

Definition _createClientLoaderData `{BuilderClass} (_bundles : Registry)
    (bundle : Bundle) (moduleName : string) : Loaded :=
  match _getLoaderData _bundles (bundleName bundle) (Some clientFilter) with
  | Present loaderData =>
      Present (mkLoaderData
                 (<[moduleName := MetaEntry (bundleName bundle) "client"]>
                    (json loaderData))
                 (js loaderData))
  | Absent why => Absent why
  end.

(** ** Vocabulary of the compiler's properties *)

(** The builds of [m] that pass the filter. *)
Definition passing (flt : ModuleFilter) (m : ModRecord) : gmap string Build :=
  filter (λ kb, passes flt m kb.2 = true) (builds m).

(** The entry of [buildMeta] that the loops build for [m]: none when no
    build passes. *)
Definition filtered (flt : ModuleFilter) (m : ModRecord) : option ModRecord :=
  if decide (passing flt m = ∅) then None
  else Some (mkMod (name m) (buildfile m) (passing flt m)).

(** ** Attaching loader data to the bundle *)

Definition setServer (json : Json) (y : Yui) : Yui :=
  mkYui (Some json) (client y) (metaModuleFullpath y) (metaModuleName y).

Definition setClient (json : Json) (y : Yui) : Yui :=
  mkYui (server y) (Some json) (metaModuleFullpath y) (metaModuleName y).

Definition setMetaModule (fullpath moduleName : string) (y : Yui) : Yui :=
  mkYui (server y) (client y) (Some fullpath) (Some moduleName).

Definition withYui (bundle : Bundle) (y : Yui) : Bundle :=
  mkBundle (bundleName bundle) (buildDirectory bundle) (Some y).

Definition _attachServerLoaderData (bundle : Bundle) (loaderData : Loaded)
    : Bundle :=
  match loaderData with
  | Present data =>
      withYui bundle (setServer (json data) (default emptyYui (yui bundle)))
  | Absent _ => bundle
  end.

(** The value of [loaderData && api.writeFileInBundle(...)]. *)
Inductive WriteResult :=
| NotWritten (why : Js.Falsy)
| Resolved (newfile : option string)
| Rejected (err : string).

(** The bundle afterwards, the value returned, and the calls made. *)
Definition _attachClientLoaderData `{LocatorApi} (bundle : Bundle)
    (destPath : string) (loaderData : Loaded)
    : Bundle * WriteResult * list Effect :=
  match loaderData with
  | Present data =>
      let bundle' :=
        withYui bundle (setClient (json data) (default emptyYui (yui bundle))) in
      let written :=
        match writeFileInBundle (bundleName bundle) destPath (js data) with
        | inl err => Rejected err
        | inr newfile => Resolved newfile
        end in
      (bundle', written,
       [WriteFileInBundle (bundleName bundle) destPath (js data)])
  | Absent why => (bundle, NotWritten why, [])
  end.

(** [None] is the [TypeError] of [bundle.yui.metaModuleFullpath = newfile]
    on a bundle without [yui]. *)
Definition _attachClientMetaData (bundle : Bundle) (builds : list string)
    (moduleName : string) (newfile : option string)
    : option (Bundle * list string) :=
  match newfile with
  | Some path =>
      if Js.truthy path then
        match yui bundle with
        | Some y =>
            Some (withYui bundle (setMetaModule path moduleName y),
                  (builds ++ [path])%list)
        | None => None
        end
      else Some (bundle, builds)
  | None => Some (bundle, builds)
  end.

(** ** The build-set resolver: [_buildsInBundle] *)

Section Resolver.
Context `{PathModule} `{Shifter}.

(** [libpath.extname(file) === '.js' &&
     libpath.basename(file) !== 'loader-' + bundleName + '.js'] *)
Definition isCandidateModule (bundleName file : string) : bool :=
  bool_decide (extname file = ".js")
  && bool_decide (basename file ≠ "loader-" +:+ bundleName +:+ ".js").

(** One turn of the loop over the modified files. *)
Definition scanModified (bundleName : string)
    (st : Registry * gset string) (file : string) : Registry * gset string :=
  if isCandidateModule bundleName file then
    match _checkYUIModule file with
    | Some info => (_register st.1 bundleName file info, {[file]} ∪ st.2)
    | None => st
    end
  else st.

(** [file.indexOf(dir) === 0]: the path of the file starts with [dir]. *)
Definition underDirectory (file dir : string) : bool :=
  bool_decide (Js.indexOf file dir = 0).

(** [file.indexOf(bundle.buildDirectory) === -1]: the build directory does
    not occur in the path of the file. *)
Definition outsideBuildDirectory (file buildDirectory : string) : bool :=
  bool_decide (Js.indexOf file buildDirectory = -1).

(** The second test of the inner loop: a modified [.js] file in the range
    of the descriptor and not under the build directory. *)
Definition triggers (bundle : Bundle) (dir file : string) : bool :=
  bool_decide (extname file = ".js")
  && underDirectory file dir
  && outsideBuildDirectory file (buildDirectory bundle).

(** One turn of the inner loop over the modified files. *)
Definition markDescriptor (bundle : Bundle) (jsonFile dir : string)
    (builds : gset string) (file : string) : gset string :=
  let builds :=
    if bool_decide (file = jsonFile) then {[jsonFile]} ∪ builds else builds in
  if triggers bundle dir file then {[jsonFile]} ∪ builds else builds.

(** One turn of the loop over the json files. *)
Definition scanDescriptor (bundle : Bundle) (modifiedFiles : list string)
    (st : Registry * gset string) (jsonFile : string)
    : Registry * gset string :=
  if bool_decide (basename jsonFile = "build.json") then
    match _checkBuildFile jsonFile with
    | Some info =>
        let dir := dirname jsonFile in
        let builds :=
          foldl (markDescriptor bundle jsonFile dir) st.2 modifiedFiles in
        (_register st.1 (bundleName bundle) jsonFile info, builds)
    | None => st
    end
  else st.

(** The array returned, and [this._bundles] afterwards. *)
Definition _buildsInBundle (_bundles : Registry) (bundle : Bundle)
    (modifiedFiles jsonFiles : option (list string))
    : list string * Registry :=
  let modifiedFiles := Js.sortOrEmpty modifiedFiles in
  let jsonFiles := Js.sortOrEmpty jsonFiles in
  let st := foldl (scanModified (bundleName bundle)) (_bundles, ∅) modifiedFiles in
  let st := foldl (scanDescriptor bundle modifiedFiles) st jsonFiles in
  (Js.sort (elements st.2), st.1).

End Resolver.

(** ** Vocabulary of the resolver's properties *)

Section ResolverVocabulary.
Context `{PathModule} `{Shifter}.

(** What the first loop registers for [file], if anything. *)
Definition validModule (bundleName file : string) : option ModRecord :=
  if isCandidateModule bundleName file then _checkYUIModule file else None.

(** What the second loop registers for [jsonFile], if anything. *)
Definition validDescriptor (jsonFile : string) : option ModRecord :=
  if bool_decide (basename jsonFile = "build.json")
  then _checkBuildFile jsonFile else None.

(** The record that a loop over [l] leaves under [key]. *)
Definition registeredBy (valid : string → option ModRecord)
    (l : list string) (key : string) : option ModRecord :=
  if decide (key ∈ l) then valid key else None.

(** Some modified file makes the inner loop mark [jsonFile]. *)
Definition marked (bundle : Bundle) (modifiedFiles : list string)
    (jsonFile : string) : Prop :=
  ∃ file, file ∈ modifiedFiles
          ∧ (file = jsonFile ∨ triggers bundle (dirname jsonFile) file = true).

End ResolverVocabulary.

(** ** The directory tests as the comments word them

    The comments of the inner loop of [_buildsInBundle] speak of a modified
    file "in the range" of the descriptor and "not under build directory".
    [liesUnder file dir] is that reading on paths: [file] is [dir], a slash,
    and more. *)
Definition liesUnder (file dir : string) : bool :=
  String.prefix (dir +:+ "/") file.

(** [x || y] on values that are records or falsy. *)
Definition orElse {A} (x y : option A) : option A :=
  match x with Some _ => x | None => y end.

(** ** The pipeline: [_shiftEverything] and [bundleUpdated] *)

(** [this.describe.options], as far as [bundleUpdated] reads it. *)
Record Options := mkOptions {
  optCache : bool;
  cssproc : option string;
  optFilter : option (Bundle → string → bool)
}.

(** The plugin instance: [this.describe.args], [this.describe.options] and
    the internal cache [this._bundles]. *)
Record Plugin := mkPlugin {
  describeArgs : list string;
  options : Options;
  _bundles : Registry
}.

Definition withBundles (self : Plugin) (reg : Registry) : Plugin :=
  mkPlugin (describeArgs self) (options self) reg.

(** The change event handed to [bundleUpdated]. *)
Record Event `{Utils} := mkEvent {
  bundle : Bundle;
  files : EvtFiles
}.

(** How [bundleUpdated] ends: it returns [undefined] at once ([NoOp]), or a
    promise that is fulfilled or rejected; [Threw] is a rejection by an
    exception of the plugin's own code. *)
Inductive Status :=
| NoOp
| Fulfilled
| Failed (err : string)
| Threw.

Record Outcome := mkOutcome {
  status : Status;
  pluginAfter : Plugin;
  bundleAfter : Bundle;
  effects : list Effect
}.

Section Pipeline.
Context `{PathModule} `{Shifter} `{BuilderClass} `{Utils} `{LocatorApi}.

(** The error given to the callback, and the call made. *)
Definition _shiftEverything (self : Plugin) (bundle : Bundle)
    (cssproc : option string) (builds : list string)
    : option string * list Effect :=
  let args := describeArgs self in
  let args :=
    match cssproc with
    | Some base =>
        if Js.truthy base then
          let base :=
            if bool_decide (Js.lastChar base = "/") then base
            else base +:+ "/" in
          (args ++ ["--cssproc"; base +:+ basename (buildDirectory bundle)])%list
        else args
    | None => args
    end in
  let opts :=
    mkShiftOptions (buildDirectory bundle) args (optCache (options self)) in
  (shiftFiles builds opts, [ShiftFiles builds opts]).

(** The stages after the guard, on the targets [builds] and with the
    registry already updated by the resolver. *)
Definition runPipeline (self : Plugin) (bundle : Bundle)
    (builds : list string) : Outcome :=
  let moduleName := "loader-" +:+ bundleName bundle in
  let destination_path := moduleName +:+ ".js" in
  let bundle :=
    _attachServerLoaderData bundle
      (_createServerLoaderData (_bundles self) bundle) in
  let '(bundle, written, fx) :=
    _attachClientLoaderData bundle destination_path
      (_createClientLoaderData (_bundles self) bundle moduleName) in
  let continue (newfile : option string) :=
    match _attachClientMetaData bundle builds moduleName newfile with
    | Some (bundle, builds) =>
        let '(err, fx') :=
          _shiftEverything self bundle (cssproc (options self)) builds in
        mkOutcome (match err with Some e => Failed e | None => Fulfilled end)
                  self bundle (fx ++ fx')%list
    | None => mkOutcome Threw self bundle fx
    end in
  match written with
  | Rejected err => mkOutcome (Failed err) self bundle fx
  | Resolved newfile => continue newfile
  | NotWritten _ => continue None
  end.

Definition bundleUpdated (self : Plugin) (evt : Event) : Outcome :=
  let bundle := bundle evt in
  let files :=
    filterFilesInBundle bundle (files evt) (optFilter (options self)) in
  let '(builds, reg) :=
    _buildsInBundle (_bundles self) bundle files
                    (getBundleFiles (bundleName bundle)) in
  let self := withBundles self reg in
  (* if (!meta || builds.length === 0) return; *)
  if bool_decide (reg !! bundleName bundle = None)
     || bool_decide (builds = [])
  then mkOutcome NoOp self bundle []
  else runPipeline self bundle builds.

End Pipeline.

(** ** The constructor: [PluginClass] *)

(** JavaScript's [RegExp], for a pattern without the [g] and [y] flags, whose
    [test] is a function of the string. *)
Class RegExpModule := {
  RegExp : Type;
  test : RegExp → string → bool
}.

(** [config.filter]: a regular expression or a function. *)
Inductive FilterOption `{RegExpModule} :=
| RegexFilter (pattern : RegExp)
| FunctionFilter (keep : Bundle → string → bool).

(** The [config] object handed to the constructor.  [cfgCache] is [None]
    when the object has no own property [cache]; the four toggles are read
    for their truthiness. *)
Record PluginConfig `{RegExpModule} := mkPluginConfig {
  cfgCache : option bool;
  cfgArgs : option (list string);
  cfgLint : bool;
  cfgCoverage : bool;
  cfgSilent : bool;
  cfgQuiet : bool;
  cfgCssproc : option string;
  cfgFilter : option FilterOption
}.

(** [config || {}] *)
Definition emptyPluginConfig `{RegExpModule} : PluginConfig :=
  {| cfgCache := None; cfgArgs := None;
     cfgLint := false; cfgCoverage := false;
     cfgSilent := false; cfgQuiet := false;
     cfgCssproc := None; cfgFilter := None |}.

(** The arguments computed before [config.args] is appended. *)
Definition shifterFlags `{RegExpModule} (debugMode : bool) (config : PluginConfig)
    : list string :=
  let args := ["--no-global-config"] in
  let push (arg : string) (args : list string) := (args ++ [arg])%list in
  let args := if negb (cfgCoverage config) then push "--no-coverage" args else args in
  let args := if negb (cfgLint config) then push "--no-lint" args else args in
  let args :=
    if negb debugMode || cfgSilent config then push "--silent" args else args in
  let args :=
    if negb debugMode || cfgQuiet config then push "--quiet" args else args in
  args.

(** [config.filter] after the constructor: a regular expression is wrapped
    into a function of the relative path. *)
Definition wrapFilter `{RegExpModule} (f : option FilterOption)
    : option (Bundle → string → bool) :=
  match f with
  | Some (RegexFilter regexFilter) => Some (λ _ relativePath, test regexFilter relativePath)
  | Some (FunctionFilter keep) => Some keep
  | None => None
  end.

(** [new PluginClass(config)], with [utils.debugMode] as [debugMode]. *)
Definition PluginClass `{RegExpModule} (debugMode : bool)
    (config : option PluginConfig) : Plugin :=
  let config := default emptyPluginConfig config in
  mkPlugin
    (shifterFlags debugMode config ++ default [] (cfgArgs config))%list
    (mkOptions (default true (cfgCache config))
               (cfgCssproc config)
               (wrapFilter (cfgFilter config)))
    ∅.

(** ** POSIX paths

    The behaviour of Node's [path.basename], [path.extname] and
    [path.dirname] on POSIX: trailing slashes are ignored, the base name is
    the last component of the path, and the extension runs from the last dot
    of the base name unless that dot is its first character or the base name
    is [".."]. *)

Module Posix.

Definition slash : ascii := "/"%char.
Definition dot : ascii := "."%char.

Fixpoint dropSlashes (l : list ascii) : list ascii :=
  match l with
  | c :: rest => if bool_decide (c = slash) then dropSlashes rest else l
  | [] => []
  end.

(** The characters before the first [stop], and what follows it. *)
Fixpoint splitAt (stop : ascii) (l : list ascii)
    : list ascii * option (list ascii) :=
  match l with
  | [] => ([], None)
  | c :: rest =>
      if bool_decide (c = stop) then ([], Some rest)
      else let '(before, after) := splitAt stop rest in (c :: before, after)
  end.

(** The path without its trailing slashes, last character first. *)
Definition trimmed (path : string) : list ascii :=
  dropSlashes (reverse (list_ascii_of_string path)).

Definition basename (path : string) : string :=
  string_of_list_ascii (reverse (splitAt slash (trimmed path)).1).

(** The extension of one path component. *)
Definition extOf (base : string) : string :=
  match splitAt dot (reverse (list_ascii_of_string base)) with
  | (_, None) => ""
  | (_, Some []) => ""
  | (ext, Some (_ :: _)) =>
      if bool_decide (base = "..") then ""
      else string_of_list_ascii (dot :: reverse ext)
  end.

Definition extname (path : string) : string := extOf (basename path).

Definition hasRoot (path : string) : bool :=
  match path with
  | String c _ => bool_decide (c = slash)
  | EmptyString => false
  end.

Definition dirname (path : string) : string :=
  match path with
  | EmptyString => "."
  | String first rest =>
      match splitAt slash (dropSlashes (reverse (list_ascii_of_string rest))) with
      | (_, Some before) =>
          if hasRoot path && bool_decide (before = [])
          then "//"
          else String first (string_of_list_ascii (reverse before))
      | (_, None) => if hasRoot path then "/" else "."
      end
  end.

Definition path : PathModule := Build_PathModule extname basename dirname.

End Posix.

(** ** Models of the collaborators that are not in [lib/plugin.js] *)

(** A builder for the examples: its [json] mirrors the structure that it is
    fed, one entry per entry, and its text is a rendering [render] of that
    structure.  It stands for no particular [lib/builder.js]: the properties
    of the plugin are stated for any builder. *)
Definition mirrorBuilder
    (render : string → string → gmap string ModRecord → string) : BuilderClass :=
  {| compile name group buildMeta :=
       Some (mkLoaderData (ModuleEntry <$> buildMeta)
                          (render name group buildMeta)) |}.

(** An entry of [evt.files]. *)
Record ModifiedFile := mkModifiedFile {
  fullPath : string;
  relativePath : string
}.

(** Modelled from the spec: [lib/utils.js] is missing.  The file filter is
    "applied upstream to the modified-file list before it reaches the core":
    without a filter every file is kept, with one those for which the
    predicate holds on the bundle and the relative path. *)
Definition specUtils : Utils :=
  {| EvtFiles := list ModifiedFile;
     filterFilesInBundle bundle files filter :=
       Some (fullPath <$>
               List.filter (λ f, match filter with
                                 | Some keep => keep bundle (relativePath f)
                                 | None => true
                                 end) files) |}.

(** ** A small bundle used in the examples *)

Module Demo.

Definition app : Bundle := mkBundle "app" "/app/build" None.

Definition fooBuilds : gmap string Build :=
  {[ "foo" := mkBuild (Some (mkConfig None));
     "foo-server" := mkBuild (Some (mkConfig (Some "server"))) ]}.

Definition foo : ModRecord := mkMod "foo" "/app/src/foo.js" fooBuilds.

Definition widgets : ModRecord :=
  mkMod "widgets" "/app/widgets/build.json"
        {[ "widgets" := mkBuild (Some (mkConfig (Some "client"))) ]}.

Definition loader : ModRecord :=
  mkMod "loader-app" "/app/loader-app.js" {[ "loader-app" := mkBuild None ]}.

Definition shifter : Shifter :=
  {| _checkYUIModule file :=
       if bool_decide (file = "/app/src/foo.js") then Some foo
       else if bool_decide (file = "/app/loader-app.js") then Some loader
       else None;
     _checkBuildFile file :=
       if bool_decide (file = "/app/widgets/build.json") then Some widgets
       else None;
     shiftFiles _ _ := None |}.

Definition api : LocatorApi :=
  {| getBundleFiles _ :=
       Some ["/app/widgets/build.json"; "/app/broken/build.json";
             "/app/package.json"];
     writeFileInBundle _ destPath _ := inr (Some ("/app/build/" +:+ destPath)) |}.

Definition render (name group : string) (_ : gmap string ModRecord) : string :=
  "YUI.add('" +:+ name +:+ "')".

Definition builder : BuilderClass := mirrorBuilder render.

Definition plugin : Plugin :=
  mkPlugin ["--no-global-config"] (mkOptions true None None) ∅.

(** A registry with a shared module and a client-only descriptor. *)
Definition registry : Registry :=
  {[ "app" := {[ "/app/src/foo.js" := foo;
                 "/app/widgets/build.json" := widgets ]} ]}.


Definition loaded : Plugin :=
  mkPlugin ["--no-global-config"] (mkOptions true None None) registry.

Definition event (files : list ModifiedFile) : @Event specUtils :=
  @mkEvent specUtils app files.

(** [_buildsInBundle] on POSIX paths with the checks of [shifter]. *)
Definition resolve :=
  @_buildsInBundle Posix.path shifter.

Definition update :=
  @bundleUpdated Posix.path shifter builder specUtils api.

End Demo.


(** ** More fixtures for the examples *)

Module Fixtures.

(** An api whose write is rejected. *)
Definition failingApi : LocatorApi :=
  {| getBundleFiles _ := Some ["/app/widgets/build.json"];
     writeFileInBundle _ _ _ := inl "EACCES" |}.

(** A module that is built for the server only. *)
Definition backend : ModRecord :=
  mkMod "backend" "/app/src/backend.js"
        {[ "backend" := mkBuild (Some (mkConfig (Some "server"))) ]}.

(** A module whose [builds] is empty. *)
Definition hollow : ModRecord := mkMod "hollow" "/app/src/hollow.js" ∅.

(** A registry that holds only the server-only module. *)
Definition serverOnly : Registry :=
  {[ "app" := {[ "/app/src/backend.js" := backend ]} ]}.

Definition serverPlugin : Plugin :=
  mkPlugin ["--no-global-config"] (mkOptions true None None) serverOnly.

(** A shifter for which two descriptors are valid and no file is a module. *)
Definition descriptors : Shifter :=
  {| _checkYUIModule _ := None;
     _checkBuildFile file :=
       if bool_decide (file = "/app/builder/build.json")
       then Some (mkMod "builder" file {[ "builder" := mkBuild None ]})
       else if bool_decide (file = "/app/widgets/build.json")
       then Some Demo.widgets
       else None;
     shiftFiles _ _ := None |}.


(** Patterns that are plain strings, matched anywhere in the path. *)
Definition substrings : RegExpModule :=
  {| RegExp := string;
     test pattern path := bool_decide (Js.indexOf path pattern ≠ -1) |}.

Definition runDemo :=
  @runPipeline Posix.path Demo.shifter Demo.builder Demo.api.

Definition runFailing :=
  @runPipeline Posix.path Demo.shifter Demo.builder failingApi.

End Fixtures.

(** * Properties *)

(** ** Sorting *)

Lemma sort_perm l : Js.sort l ≡ₚ l.
Proof. apply merge_sort_Permutation. Qed.

Lemma sort_elem_of x l : x ∈ Js.sort l ↔ x ∈ l.
Proof. by rewrite sort_perm. Qed.

Lemma sort_sorted l : Sorted String.le (Js.sort l).
Proof. apply (Sorted_merge_sort _). Qed.

Lemma sort_invariant l1 l2 : l1 ≡ₚ l2 → Js.sort l1 = Js.sort l2.
Proof.
  intros Hp. apply (Sorted_unique String.le); try apply sort_sorted.
  by rewrite !sort_perm.
Qed.

Lemma sortOrEmpty_elem_of x o : x ∈ Js.sortOrEmpty o ↔ x ∈ default [] o.
Proof. destruct o; cbn; [apply sort_elem_of | done]. Qed.

(** ** The registry *)

Lemma bundleMeta_register reg b k m :
  bundleMeta (_register reg b k m) b = <[k := m]> (bundleMeta reg b).
Proof. unfold bundleMeta, _register. by rewrite lookup_insert_eq. Qed.

Lemma register_other_bundle reg b b' k m :
  b' ≠ b → _register reg b k m !! b' = reg !! b'.
Proof. intros. unfold _register. by rewrite lookup_insert_ne. Qed.

Lemma register_is_Some reg b k m : is_Some (_register reg b k m !! b).
Proof. unfold _register. rewrite lookup_insert_eq. eauto. Qed.

(** C8: registering twice under the same bundle name and cache key leaves
    exactly one record under that pair, the one of the later call: the
    registry is the one that the later call alone would have produced, it
    holds as many records as after the first call, and the other keys and
    bundles are untouched.  [_register] is a total function: it cannot
    fail. *)
Theorem register_twice_latest_wins (reg : Registry) (b k : string) (m1 m2 : ModRecord) :
  let reg' := _register (_register reg b k m1) b k m2 in
  bundleMeta reg' b !! k = Some m2
  ∧ reg' = _register reg b k m2
  ∧ size (bundleMeta reg' b) = size (bundleMeta (_register reg b k m1) b)
  ∧ (∀ k', k' ≠ k → bundleMeta reg' b !! k' = bundleMeta reg b !! k')
  ∧ (∀ b', b' ≠ b → reg' !! b' = reg !! b').
Proof.
  cbn zeta. repeat split.
  - by rewrite bundleMeta_register, lookup_insert_eq.
  - unfold _register. rewrite lookup_insert_eq. cbn.
    by rewrite insert_insert_eq, insert_insert_eq.
  - rewrite !bundleMeta_register, insert_insert_eq.
    by rewrite !map_size_insert.
  - intros k' Hk. rewrite !bundleMeta_register.
    by rewrite !lookup_insert_ne.
  - intros b' Hb. by rewrite !register_other_bundle.
Qed.

(** ** The two loops of the resolver *)

Section ResolverFacts.
Context `{PathModule} `{Shifter}.

Lemma scanModified_eq b st f :
  scanModified b st f =
  match validModule b f with
  | Some info => (_register st.1 b f info, {[f]} ∪ st.2)
  | None => st
  end.
Proof. unfold scanModified, validModule. by destruct (isCandidateModule b f). Qed.

Lemma scanDescriptor_eq bundle ms st d :
  scanDescriptor bundle ms st d =
  match validDescriptor d with
  | Some info =>
      (_register st.1 (bundleName bundle) d info,
       foldl (markDescriptor bundle d (dirname d)) st.2 ms)
  | None => st
  end.
Proof.
  unfold scanDescriptor, validDescriptor.
  by destruct (bool_decide (basename d = "build.json")).
Qed.

Lemma registeredBy_nil valid k : registeredBy valid [] k = None.
Proof. unfold registeredBy. case_decide as Hk; [by apply elem_of_nil in Hk|done]. Qed.

Lemma registeredBy_cons valid a l k :
  registeredBy valid (a :: l) k =
  if decide (k = a) then valid k else registeredBy valid l k.
Proof.
  unfold registeredBy. rewrite (decide_ext _ (k = a ∨ k ∈ l)) by apply elem_of_cons.
  repeat case_decide; naive_solver.
Qed.

(** The loop over the modified files. *)

Lemma first_loop_builds b ms st x :
  x ∈ (foldl (scanModified b) st ms).2
  ↔ x ∈ st.2 ∨ (x ∈ ms ∧ is_Some (validModule b x)).
Proof.
  revert st. induction ms as [|a ms IH]; intros st; cbn.
  - rewrite elem_of_nil. naive_solver.
  - rewrite IH, scanModified_eq, elem_of_cons.
    destruct (validModule b a) as [info|] eqn:E; cbn.
    + rewrite elem_of_union, elem_of_singleton.
      split; [|naive_solver].
      intros [[->|?]|[? ?]]; [right; split; [by left|by rewrite E]|by left|naive_solver].
    + split; [naive_solver|].
      intros [?|[[->|?] Hv]]; [by left| |naive_solver].
      rewrite E in Hv. by destruct Hv.
Qed.

Lemma first_loop_meta b ms st k :
  bundleMeta (foldl (scanModified b) st ms).1 b !! k
  = orElse (registeredBy (validModule b) ms k) (bundleMeta st.1 b !! k).
Proof.
  revert st. induction ms as [|a ms IH]; intros st; cbn.
  - by rewrite registeredBy_nil.
  - rewrite IH, scanModified_eq, registeredBy_cons.
    destruct (validModule b a) as [info|] eqn:E; cbn.
    + rewrite bundleMeta_register. case_decide as Hk.
      * subst k. rewrite E, lookup_insert_eq. cbn.
        unfold registeredBy. case_decide; [by rewrite E|done].
      * by rewrite lookup_insert_ne.
    + case_decide as Hk; [|done]. subst k. rewrite E.
      unfold registeredBy. case_decide; [by rewrite E|done].
Qed.

Lemma first_loop_other b ms st b' :
  b' ≠ b → (foldl (scanModified b) st ms).1 !! b' = st.1 !! b'.
Proof.
  intros Hb. revert st. induction ms as [|a ms IH]; intros st; cbn; [done|].
  rewrite IH, scanModified_eq. destruct (validModule b a); cbn; [|done].
  by rewrite register_other_bundle.
Qed.

(** The inner loop of a valid descriptor. *)

Lemma markDescriptor_elem bundle d dir S a x :
  x ∈ markDescriptor bundle d dir S a
  ↔ x ∈ S ∨ (x = d ∧ (a = d ∨ triggers bundle dir a = true)).
Proof.
  unfold markDescriptor.
  destruct (bool_decide_reflect (a = d)) as [Ha|Ha];
    destruct (triggers bundle dir a) eqn:Ht;
    rewrite ?elem_of_union, ?elem_of_singleton; split; intros Hx.
  all: repeat match goal with
              | Hx : _ ∨ _ |- _ => destruct Hx as [Hx|Hx]
              | Hx : _ ∧ _ |- _ => destruct Hx as [? Hx]
              end; subst; auto; try done.
Qed.

Lemma inner_loop_builds bundle d dir ms S x :
  x ∈ foldl (markDescriptor bundle d dir) S ms
  ↔ x ∈ S ∨ (x = d ∧ ∃ f, f ∈ ms ∧ (f = d ∨ triggers bundle dir f = true)).
Proof.
  revert S. induction ms as [|a ms IH]; intros S; cbn.
  - split; [by left|]. intros [?|[_ (f & Hf & _)]]; [done|].
    by apply elem_of_nil in Hf.
  - rewrite IH, markDescriptor_elem.
    setoid_rewrite elem_of_cons. naive_solver.
Qed.

(** The loop over the json files. *)

Lemma second_loop_builds bundle ms js st x :
  x ∈ (foldl (scanDescriptor bundle ms) st js).2
  ↔ x ∈ st.2 ∨ (x ∈ js ∧ is_Some (validDescriptor x) ∧ marked bundle ms x).
Proof.
  revert st. induction js as [|d js IH]; intros st; cbn.
  - rewrite elem_of_nil. naive_solver.
  - rewrite IH, scanDescriptor_eq, elem_of_cons.
    destruct (validDescriptor d) as [info|] eqn:E; cbn.
    + rewrite inner_loop_builds. unfold marked.
      assert (is_Some (validDescriptor d)) by (rewrite E; eauto).
      naive_solver.
    + split; [naive_solver|].
      intros [?|[[->|?] [Hv ?]]]; [by left| |naive_solver].
      rewrite E in Hv. by destruct Hv.
Qed.

Lemma second_loop_meta bundle ms js st k :
  bundleMeta (foldl (scanDescriptor bundle ms) st js).1 (bundleName bundle) !! k
  = orElse (registeredBy validDescriptor js k)
           (bundleMeta st.1 (bundleName bundle) !! k).
Proof.
  revert st. induction js as [|d js IH]; intros st; cbn.
  - by rewrite registeredBy_nil.
  - rewrite IH, scanDescriptor_eq, registeredBy_cons.
    destruct (validDescriptor d) as [info|] eqn:E; cbn.
    + rewrite bundleMeta_register. case_decide as Hk.
      * subst k. rewrite E, lookup_insert_eq. cbn.
        unfold registeredBy. case_decide; [by rewrite E|done].
      * by rewrite lookup_insert_ne.
    + case_decide as Hk; [|done]. subst k. rewrite E.
      unfold registeredBy. case_decide; [by rewrite E|done].
Qed.

Lemma second_loop_other bundle ms js st b' :
  b' ≠ bundleName bundle →
  (foldl (scanDescriptor bundle ms) st js).1 !! b' = st.1 !! b'.
Proof.
  intros Hb. revert st. induction js as [|d js IH]; intros st; cbn; [done|].
  rewrite IH, scanDescriptor_eq. destruct (validDescriptor d); cbn; [|done].
  by rewrite register_other_bundle.
Qed.

End ResolverFacts.

(** ** String search *)

Lemma prefix_append p rest : String.prefix p (p +:+ rest) = true.
Proof.
  induction p as [|c p IH]; simpl; [by destruct rest|].
  destruct (ascii_dec c c); [exact IH|congruence].
Qed.

(** A path that starts with [p] has [p] at position 0. *)
Lemma indexOf_prefix p rest : Js.indexOf (p +:+ rest) p = 0.
Proof.
  unfold Js.indexOf. destruct p as [|c p]; simpl.
  - by destruct rest.
  - destruct (ascii_dec c c); [|congruence]. by rewrite prefix_append.
Qed.

(** ** The resolver as a whole *)

Section ResolverTheorems.
Context `{PathModule} `{Shifter}.

Lemma triggers_true bundle dir f :
  triggers bundle dir f = true
  ↔ extname f = ".js"
    ∧ Js.indexOf f dir = 0
    ∧ Js.indexOf f (buildDirectory bundle) = -1.
Proof.
  unfold triggers, underDirectory, outsideBuildDirectory.
  rewrite !andb_true_iff, !bool_decide_eq_true. naive_solver.
Qed.

Lemma registeredBy_sorted valid o k :
  registeredBy valid (Js.sortOrEmpty o) k = registeredBy valid (default [] o) k.
Proof. unfold registeredBy. apply decide_ext, sortOrEmpty_elem_of. Qed.

Lemma marked_sorted bundle o d :
  marked bundle (Js.sortOrEmpty o) d ↔ marked bundle (default [] o) d.
Proof. unfold marked. by setoid_rewrite sortOrEmpty_elem_of. Qed.

(** The targets: the valid modules among the modified files, and the valid
    descriptors that some modified file marks. *)
Lemma targets_elem_of reg bundle oms ojs x :
  x ∈ (_buildsInBundle reg bundle oms ojs).1
  ↔ (x ∈ default [] oms ∧ is_Some (validModule (bundleName bundle) x))
    ∨ (x ∈ default [] ojs ∧ is_Some (validDescriptor x)
       ∧ marked bundle (default [] oms) x).
Proof.
  unfold _buildsInBundle. cbn.
  rewrite sort_elem_of, elem_of_elements, second_loop_builds,
    first_loop_builds. cbn.
  rewrite !sortOrEmpty_elem_of, marked_sorted, elem_of_empty. naive_solver.
Qed.

(** The registry afterwards: a descriptor's record, else a module's, else
    what was there before. *)
Lemma registry_after reg bundle oms ojs k :
  bundleMeta (_buildsInBundle reg bundle oms ojs).2 (bundleName bundle) !! k
  = orElse (registeredBy validDescriptor (default [] ojs) k)
      (orElse (registeredBy (validModule (bundleName bundle)) (default [] oms) k)
              (bundleMeta reg (bundleName bundle) !! k)).
Proof.
  unfold _buildsInBundle. cbn.
  by rewrite second_loop_meta, first_loop_meta, !registeredBy_sorted.
Qed.

Lemma registry_after_other reg bundle oms ojs b' :
  b' ≠ bundleName bundle →
  (_buildsInBundle reg bundle oms ojs).2 !! b' = reg !! b'.
Proof.
  intros. unfold _buildsInBundle. cbn.
  by rewrite second_loop_other, first_loop_other.
Qed.

Lemma validDescriptor_Some d info :
  basename d = "build.json" → _checkBuildFile d = Some info →
  validDescriptor d = Some info.
Proof. intros Hb Hc. unfold validDescriptor. by rewrite bool_decide_eq_true_2. Qed.

Lemma validDescriptor_inv d info :
  validDescriptor d = Some info →
  basename d = "build.json" ∧ _checkBuildFile d = Some info.
Proof. unfold validDescriptor. case_bool_decide; naive_solver. Qed.

Lemma validModule_inv b f info :
  validModule b f = Some info →
  extname f = ".js" ∧ basename f ≠ "loader-" +:+ b +:+ ".js"
  ∧ _checkYUIModule f = Some info.
Proof.
  unfold validModule, isCandidateModule.
  destruct (bool_decide_reflect (extname f = ".js"));
    destruct (bool_decide_reflect (basename f ≠ "loader-" +:+ b +:+ ".js"));
    naive_solver.
Qed.

Lemma validModule_Some b f info :
  extname f = ".js" → basename f ≠ "loader-" +:+ b +:+ ".js" →
  _checkYUIModule f = Some info → validModule b f = Some info.
Proof.
  intros He Hb Hc. unfold validModule, isCandidateModule.
  by rewrite !bool_decide_eq_true_2.
Qed.

(** X24: a valid [build.json] descriptor among the json files is a target
    if and only if it is one of the modified files, or some modified file
    has extension [.js], starts with the descriptor's directory
    ([file.indexOf(dir) === 0]) and does not contain the build directory
    ([file.indexOf(bundle.buildDirectory) === -1]).  When every modified
    file lies in the build directory and the descriptor itself is not
    modified, the descriptor is not a target. *)
Theorem descriptor_targeted_iff (reg : Registry) (bundle : Bundle)
    (ms js : list string) (d : string) (info : ModRecord) :
  d ∈ js → basename d = "build.json" → _checkBuildFile d = Some info →
  let targets := (_buildsInBundle reg bundle (Some ms) (Some js)).1 in
  (d ∈ targets
   ↔ d ∈ ms
     ∨ ∃ f, f ∈ ms ∧ extname f = ".js"
            ∧ Js.indexOf f (dirname d) = 0
            ∧ Js.indexOf f (buildDirectory bundle) = -1)
  ∧ ((∀ f, f ∈ ms → ∃ rest, f = buildDirectory bundle +:+ rest) →
     d ∉ ms → d ∉ targets).
Proof.
  intros Hd Hb Hc targets.
  assert (Hv : validDescriptor d = Some info) by by apply validDescriptor_Some.
  assert (Hiff : d ∈ targets
     ↔ d ∈ ms
       ∨ ∃ f, f ∈ ms ∧ extname f = ".js"
              ∧ Js.indexOf f (dirname d) = 0
              ∧ Js.indexOf f (buildDirectory bundle) = -1).
  { unfold targets. rewrite targets_elem_of. cbn. unfold marked.
    setoid_rewrite triggers_true. rewrite Hv. split.
    - intros [[? _]|(_ & _ & f & Hf & [->|Ht])]; [by left|by left|].
      right. by exists f.
    - intros [Hm|(f & Hf & Ht)]; right; (split; [done|split; [eauto|]]).
      + exists d. by split; [|left].
      + exists f. by split; [|right]. }
  split; [done|].
  intros Hin Hnot. rewrite Hiff. intros [?|(f & Hf & _ & _ & Hout)]; [done|].
  destruct (Hin f Hf) as [rest ->]. rewrite indexOf_prefix in Hout. lia.
Qed.

Lemma targets_sorted reg bundle oms ojs :
  StronglySorted String.le (_buildsInBundle reg bundle oms ojs).1.
Proof. unfold _buildsInBundle. cbn. apply (StronglySorted_merge_sort _). Qed.

Lemma targets_NoDup reg bundle oms ojs :
  NoDup (_buildsInBundle reg bundle oms ojs).1.
Proof.
  unfold _buildsInBundle. cbn. rewrite sort_perm. apply NoDup_elements.
Qed.

(** C2: the resolver does not depend on the order of its two input lists:
    two calls on permutations of the same modified files and of the same
    json files, from whatever registries, return the same list of targets,
    which is sorted for the lexicographic order and free of duplicates;
    from the same registry they also leave the same registry. *)
Theorem buildsInBundle_order_insensitive (reg1 reg2 : Registry)
    (bundle : Bundle) (ms1 ms2 js1 js2 : list string) :
  ms1 ≡ₚ ms2 → js1 ≡ₚ js2 →
  (_buildsInBundle reg1 bundle (Some ms1) (Some js1)).1
  = (_buildsInBundle reg2 bundle (Some ms2) (Some js2)).1
  ∧ StronglySorted String.le (_buildsInBundle reg1 bundle (Some ms1) (Some js1)).1
  ∧ NoDup (_buildsInBundle reg1 bundle (Some ms1) (Some js1)).1
  ∧ _buildsInBundle reg1 bundle (Some ms1) (Some js1)
    = _buildsInBundle reg1 bundle (Some ms2) (Some js2).
Proof.
  intros Hm Hj. split; [|split; [|split]].
  - apply (StronglySorted_unique String.le); try apply targets_sorted.
    apply NoDup_Permutation; try apply targets_NoDup.
    intros x. rewrite !targets_elem_of. cbn. unfold marked.
    setoid_rewrite Hm. by setoid_rewrite Hj.
  - apply targets_sorted.
  - apply targets_NoDup.
  - unfold _buildsInBundle. cbn [Js.sortOrEmpty].
    by rewrite (sort_invariant ms1 ms2 Hm), (sort_invariant js1 js2 Hj).
Qed.

(** C4: a file whose base name is [loader-<bundleName>.js] is never among
    the targets, whatever the module check says about it. *)
Theorem loader_module_never_targeted (reg : Registry) (bundle : Bundle)
    (oms ojs : option (list string)) (f : string) :
  basename f = "loader-" +:+ bundleName bundle +:+ ".js" →
  f ∉ (_buildsInBundle reg bundle oms ojs).1.
Proof.
  intros Hb. rewrite targets_elem_of.
  intros [[_ [info Hv]]|(_ & [info Hv] & _)].
  - apply validModule_inv in Hv as (_ & Hne & _). done.
  - apply validDescriptor_inv in Hv as [Hj _].
    rewrite Hb in Hj. discriminate Hj.
Qed.

Lemma registeredBy_Some valid l k info :
  registeredBy valid l k = Some info → k ∈ l ∧ valid k = Some info.
Proof. unfold registeredBy. case_decide; naive_solver. Qed.

Lemma registeredBy_elem valid l k : k ∈ l → registeredBy valid l k = valid k.
Proof. intros. unfold registeredBy. by rewrite decide_True. Qed.

Lemma registeredBy_invalid valid l k : valid k = None → registeredBy valid l k = None.
Proof. intros. unfold registeredBy. by case_decide. Qed.

(** C6: a [build.json] file whose descriptor check is negative, and a
    [.js] file whose module check is negative, are neither targets nor
    registered (the registry keeps what it had under that key), and the
    scan goes on over the other files: every modified file that is a valid
    module is a target and registered, and every valid descriptor among
    the json files is registered.  The path module is assumed not to give
    the extension [.js] to a file whose base name is [build.json]. *)
Theorem failed_checks_are_skipped (reg : Registry) (bundle : Bundle)
    (oms ojs : option (list string)) :
  (∀ p, basename p = "build.json" → extname p ≠ ".js") →
  let targets := (_buildsInBundle reg bundle oms ojs).1 in
  let meta := bundleMeta reg (bundleName bundle) in
  let meta' :=
    bundleMeta (_buildsInBundle reg bundle oms ojs).2 (bundleName bundle) in
  (∀ d, basename d = "build.json" → _checkBuildFile d = None →
        (d ∉ targets) ∧ meta' !! d = meta !! d)
  ∧ (∀ f, extname f = ".js" → _checkYUIModule f = None →
          (f ∉ targets) ∧ meta' !! f = meta !! f)
  ∧ (∀ g info, g ∈ default [] oms → extname g = ".js" →
               basename g ≠ "loader-" +:+ bundleName bundle +:+ ".js" →
               _checkYUIModule g = Some info →
               g ∈ targets ∧ meta' !! g = Some info)
  ∧ (∀ d info, d ∈ default [] ojs → basename d = "build.json" →
               _checkBuildFile d = Some info →
               meta' !! d = Some info).
Proof.
  intros Hpath targets meta meta'. subst targets meta meta'.
  set (b := bundleName bundle).
  assert (Hjs : ∀ f, extname f = ".js" → validDescriptor f = None).
  { intros f He. destruct (validDescriptor f) as [i|] eqn:E; [|done].
    apply validDescriptor_inv in E as [Hb _]. by apply Hpath in Hb. }
  assert (Hjson : ∀ d, basename d = "build.json" → validModule b d = None).
  { intros d Hb. destruct (validModule b d) as [i|] eqn:E; [|done].
    apply validModule_inv in E as (He & _). by apply Hpath in Hb. }
  assert (Hbad : ∀ d, _checkBuildFile d = None → validDescriptor d = None).
  { intros d Hc. unfold validDescriptor. by case_bool_decide. }
  assert (Hbad' : ∀ f, _checkYUIModule f = None → validModule b f = None).
  { intros f Hc. unfold validModule. by destruct (isCandidateModule b f). }
  split; [|split; [|split]].
  - intros d Hb Hc. rewrite targets_elem_of, registry_after. fold b.
    rewrite !registeredBy_invalid, Hbad, Hjson by auto.
    split; [|done]. intros [[_ [? ?]]|(_ & [? ?] & _)]; done.
  - intros f He Hc. rewrite targets_elem_of, registry_after. fold b.
    rewrite !registeredBy_invalid, Hbad', Hjs by auto.
    split; [|done]. intros [[_ [? ?]]|(_ & [? ?] & _)]; done.
  - intros g info Hin He Hb Hc.
    assert (validModule b g = Some info) as Hv by by apply validModule_Some.
    rewrite targets_elem_of, registry_after. fold b. split.
    + left. rewrite Hv. eauto.
    + rewrite (registeredBy_invalid validDescriptor) by auto.
      rewrite registeredBy_elem by done. by rewrite Hv.
  - intros d info Hin Hb Hc. rewrite registry_after.
    rewrite registeredBy_elem by done.
    by erewrite validDescriptor_Some.
Qed.

(** Every target has been registered by the call, with the answer of one
    of the two checks. *)
Lemma target_registered reg bundle oms ojs p :
  p ∈ (_buildsInBundle reg bundle oms ojs).1 →
  ∃ info,
    bundleMeta (_buildsInBundle reg bundle oms ojs).2 (bundleName bundle) !! p
    = Some info
    ∧ (_checkYUIModule p = Some info ∨ _checkBuildFile p = Some info).
Proof.
  rewrite targets_elem_of, registry_after.
  intros [[Hin [info Hv]]|(Hin & [info Hv] & _)].
  - rewrite (registeredBy_elem (validModule _)), Hv by done.
    destruct (registeredBy validDescriptor (default [] ojs) p) as [i|] eqn:E.
    + exists i. split; [done|right].
      apply registeredBy_Some in E as [_ E].
      by apply validDescriptor_inv in E as [_ ?].
    + exists info. split; [done|left].
      by apply validModule_inv in Hv as (_ & _ & ?).
  - rewrite registeredBy_elem, Hv by done.
    exists info. split; [done|right].
    by apply validDescriptor_inv in Hv as [_ ?].
Qed.

Lemma bundleMeta_Some_registry (reg : Registry) b k info :
  bundleMeta reg b !! k = Some info → is_Some (reg !! b).
Proof.
  unfold bundleMeta. destruct (reg !! b); [eauto|].
  cbn. by rewrite lookup_empty.
Qed.

(** Without modified files there are no targets. *)
Lemma no_modified_no_targets reg bundle oms ojs :
  default [] oms = [] → (_buildsInBundle reg bundle oms ojs).1 = [].
Proof.
  intros Hm. apply elem_of_nil_inv. intros x.
  rewrite targets_elem_of, Hm. unfold marked.
  intros [[Hx _]|(_ & _ & f & Hf & _)]; eapply elem_of_nil; eauto.
Qed.

End ResolverTheorems.

(** ** The loader metadata compiler *)

Section CompilerFacts.

Lemma filterBuilds_spec flt key m acc :
  acc !! key = None →
  filterBuilds flt key m acc =
  match filtered flt m with
  | Some entry => <[key := entry]> acc
  | None => acc
  end.
Proof.
  intros Hfresh. unfold filterBuilds, filtered, passing.
  set (P := λ kb : string * Build, passes flt m kb.2 = true).
  set (step := λ (build : string) (b : Build) (acc : gmap string ModRecord),
                 if passes flt m b then keepBuild m key build b acc else acc).
  cut (map_fold step acc (builds m)
       = if decide (filter P (builds m) = ∅) then acc
         else <[key := mkMod (name m) (buildfile m) (filter P (builds m))]> acc).
  { intros ->. by case_decide. }
  pose (Q := λ (r : gmap string ModRecord) (bs : gmap string Build),
          r = if decide (filter P bs = ∅) then acc
              else <[key := mkMod (name m) (buildfile m) (filter P bs)]> acc).
  apply (map_fold_weak_ind Q); unfold Q.
  - by rewrite map_filter_empty, decide_True.
  - intros v bd bs r Hv ->. unfold step.
    destruct (passes flt m bd) eqn:Hp.
    + rewrite map_filter_insert_True by done.
      destruct (decide (<[v:=bd]> (filter P bs) = ∅)) as [Hbad|_];
        [by apply insert_non_empty in Hbad|].
      unfold keepBuild. case_decide as He.
      * by rewrite Hfresh, He.
      * by rewrite lookup_insert_eq, insert_insert_eq.
    + rewrite map_filter_insert_False by (unfold P; cbn; congruence).
      by rewrite delete_id.
Qed.

Lemma filterMeta_lookup flt meta k :
  filterMeta flt meta !! k = meta !! k ≫= filtered flt.
Proof.
  revert k. unfold filterMeta.
  apply (map_fold_weak_ind (λ r mm, ∀ k, r !! k = mm !! k ≫= filtered flt)).
  - intros k. by rewrite !lookup_empty.
  - intros key m mm r Hkey IH k.
    rewrite filterBuilds_spec by (by rewrite IH, Hkey).
    destruct (decide (k = key)) as [->|Hne].
    + rewrite lookup_insert_eq. cbn.
      destruct (filtered flt m); [by rewrite lookup_insert_eq|].
      by rewrite IH, Hkey.
    + rewrite lookup_insert_ne by done.
      destruct (filtered flt m); [rewrite lookup_insert_ne by done|]; apply IH.
Qed.

Lemma passing_lookup flt m v bd :
  passing flt m !! v = Some bd ↔ builds m !! v = Some bd ∧ passes flt m bd = true.
Proof. unfold passing. by rewrite map_lookup_filter_Some. Qed.

Lemma filtered_None flt m :
  filtered flt m = None
  ↔ ∀ v bd, builds m !! v = Some bd → passes flt m bd = false.
Proof.
  unfold filtered. case_decide as He; split; try done.
  - intros _ v bd Hv. destruct (passes flt m bd) eqn:Hp; [|done].
    assert (passing flt m !! v = Some bd) as Hl by by apply passing_lookup.
    by rewrite He, lookup_empty in Hl.
  - intros Hall. exfalso. apply He, map_empty. intros v.
    destruct (passing flt m !! v) as [bd|] eqn:Hl; [|done].
    apply passing_lookup in Hl as [Hv Hp]. rewrite (Hall _ _ Hv) in Hp. done.
Qed.

Lemma filtered_Some flt m entry :
  filtered flt m = Some entry
  ↔ (∃ v bd, builds m !! v = Some bd ∧ passes flt m bd = true)
    ∧ entry = mkMod (name m) (buildfile m) (passing flt m).
Proof.
  unfold filtered. case_decide as He.
  - split; [done|]. intros [(v & bd & Hv & Hp) _].
    assert (passing flt m !! v = Some bd) as Hl by by apply passing_lookup.
    by rewrite He, lookup_empty in Hl.
  - split; [|by intros [_ ->]].
    intros [= <-]. split; [|done].
    apply map_choose in He as (v & bd & Hl).
    apply passing_lookup in Hl. eauto.
Qed.

Lemma filterMeta_empty flt meta :
  (∀ k m v bd, meta !! k = Some m → builds m !! v = Some bd →
               passes flt m bd = false) →
  filterMeta flt meta = ∅.
Proof.
  intros Hnone. apply map_empty. intros k. rewrite filterMeta_lookup.
  destruct (meta !! k) as [m|] eqn:Hk; [cbn|done].
  apply filtered_None. eauto.
Qed.


(** Whatever the builder: without a passing build the builder is not even
    called, and a present result is the builder's data on the filtered
    structure. *)
Lemma getLoaderData_absent `{BuilderClass} reg b flt :
  (∀ k m v bd, bundleMeta reg b !! k = Some m → builds m !! v = Some bd →
               passes flt m bd = false) →
  _getLoaderData reg b flt = Absent Js.undefined.
Proof.
  intros Hnone. unfold _getLoaderData.
  by rewrite (filterMeta_empty _ _ Hnone), map_size_empty.
Qed.

Lemma getLoaderData_present `{BuilderClass} reg b flt data :
  _getLoaderData reg b flt = Present data →
  compile ("loader-" +:+ b) b (filterMeta flt (bundleMeta reg b)) = Some data
  ∧ json data ≠ ∅.
Proof.
  unfold _getLoaderData. case_decide; [done|].
  destruct (compile _ _ _) as [d|]; [|done].
  case_decide as Hs; [done|]. intros [= ->].
  split; [done|]. by apply map_size_non_empty_iff.
Qed.


Lemma createClientLoaderData_present `{BuilderClass} reg bundle moduleName data :
  _createClientLoaderData reg bundle moduleName = Present data →
  ∃ data0,
    _getLoaderData reg (bundleName bundle) (Some clientFilter) = Present data0
    ∧ data = mkLoaderData
               (<[moduleName := MetaEntry (bundleName bundle) "client"]>
                  (json data0))
               (js data0).
Proof.
  unfold _createClientLoaderData.
  destruct (_getLoaderData _ _ _) as [?|data0]; [done|].
  intros [= <-]. eauto.
Qed.

(** C5: when [_createClientLoaderData] answers loader data, this is the
    data of [_getLoaderData] under the client filter with one entry set
    under the name of the meta module, [{group: bundleName, affinity:
    'client'}]; the other entries are those of the client view, and the
    entry is an additional one when the client view has none under that
    name.  The name is the argument [moduleName], for which [bundleUpdated]
    passes ['loader-' + bundleName].  The client filter keeps a build
    unless its affinity is ['server'], so a build without affinity or
    without config passes. *)
Theorem client_loader_data_has_meta_entry `{BuilderClass}
    (reg : Registry) (bundle : Bundle) (moduleName : string) (data : LoaderData) :
  _createClientLoaderData reg bundle moduleName = Present data →
  json data !! moduleName = Some (MetaEntry (bundleName bundle) "client")
  ∧ (∃ data0,
       _getLoaderData reg (bundleName bundle) (Some clientFilter) = Present data0
       ∧ js data = js data0
       ∧ (∀ k, k ≠ moduleName → json data !! k = json data0 !! k)
       ∧ (json data0 !! moduleName = None →
          size (json data) = S (size (json data0))))
  ∧ (∀ n c, clientFilter n c = true ↔ affinity c ≠ Some "server")
  ∧ (∀ m, passes (Some clientFilter) m (mkBuild None) = true)
  ∧ (∀ m, passes (Some clientFilter) m (mkBuild (Some (mkConfig None))) = true).
Proof.
  intros (data0 & Hget & ->)%createClientLoaderData_present. cbn.
  split; [by rewrite lookup_insert_eq|]. split; [|split; [|done]].
  - exists data0. repeat split; try done.
    + intros k Hk. by rewrite lookup_insert_ne.
    + intros Hfresh. by rewrite map_size_insert_None.
  - intros n c. unfold clientFilter. by rewrite bool_decide_eq_true.
Qed.

End CompilerFacts.

(** ** Attaching loader data *)

(** C10: with an absent loader-data argument, [_attachServerLoaderData] and
    [_attachClientLoaderData] leave the bundle as it is (a bundle without
    [yui] still has none), and [_attachClientLoaderData] returns the falsy
    value itself and makes no call to [api.writeFileInBundle]. *)
Theorem attach_absent_leaves_bundle `{LocatorApi}
    (bundle : Bundle) (destPath : string) (why : Js.Falsy) :
  _attachServerLoaderData bundle (Absent why) = bundle
  ∧ _attachClientLoaderData bundle destPath (Absent why)
    = (bundle, NotWritten why, [])
  ∧ yui (_attachServerLoaderData
            (mkBundle (bundleName bundle) (buildDirectory bundle) None)
            (Absent why)) = None
  ∧ yui (_attachClientLoaderData
            (mkBundle (bundleName bundle) (buildDirectory bundle) None)
            destPath (Absent why)).1.1 = None.
Proof. by repeat split. Qed.

(** ** The pipeline *)

Section PipelineFacts.
Context `{PathModule} `{Shifter} `{BuilderClass} `{Utils} `{LocatorApi}.

(** Past the guard, [bundleUpdated] returns a promise. *)
Lemma runPipeline_status self bundle builds :
  status (runPipeline self bundle builds) ≠ NoOp.
Proof.
  unfold runPipeline.
  destruct (_attachClientLoaderData _ _ _) as [[bundle' written] fx].
  destruct written as [why|newfile|err]; [| |done].
  - cbn. by destruct (shiftFiles _ _).
  - destruct (_attachClientMetaData bundle' builds _ newfile) as [[? ?]|];
      [|done].
    cbn. by destruct (shiftFiles _ _).
Qed.

Lemma bundleUpdated_noop self evt :
  (_buildsInBundle (_bundles self) (bundle evt)
     (filterFilesInBundle (bundle evt) (files evt) (optFilter (options self)))
     (getBundleFiles (bundleName (bundle evt)))).1 = [] →
  bundleUpdated self evt
  = mkOutcome NoOp
      (withBundles self
         (_buildsInBundle (_bundles self) (bundle evt)
            (filterFilesInBundle (bundle evt) (files evt) (optFilter (options self)))
            (getBundleFiles (bundleName (bundle evt)))).2)
      (bundle evt) [].
Proof.
  unfold bundleUpdated.
  destruct (_buildsInBundle _ _ _ _) as [builds reg']. cbn. intros ->.
  by rewrite orb_true_r.
Qed.

Lemma bundleUpdated_runs self evt :
  let out :=
    _buildsInBundle (_bundles self) (bundle evt)
      (filterFilesInBundle (bundle evt) (files evt) (optFilter (options self)))
      (getBundleFiles (bundleName (bundle evt))) in
  is_Some (out.2 !! bundleName (bundle evt)) → out.1 ≠ [] →
  bundleUpdated self evt
  = runPipeline (withBundles self out.2) (bundle evt) out.1.
Proof.
  unfold bundleUpdated.
  destruct (_buildsInBundle _ _ _ _) as [builds reg']. cbn.
  intros [meta Hmeta] Hne.
  by rewrite Hmeta, !bool_decide_eq_false_2.
Qed.

(** C7: an empty (or missing) list of modified files gives no targets, and
    then [bundleUpdated] returns at its guard, whatever the registry
    holds: the bundle is the one of the event, nothing is written and the
    shifter is not called. *)
Theorem no_modified_files_is_noop (self : Plugin) (evt : Event) :
  (∀ reg bundle ojs,
     (_buildsInBundle reg bundle (Some []) ojs).1 = []
     ∧ (_buildsInBundle reg bundle None ojs).1 = [])
  ∧ (default [] (filterFilesInBundle (bundle evt) (files evt)
                                      (optFilter (options self))) = [] →
     status (bundleUpdated self evt) = NoOp
     ∧ bundleAfter (bundleUpdated self evt) = bundle evt
     ∧ effects (bundleUpdated self evt) = []).
Proof.
  split.
  - intros reg bundle ojs. split; by apply no_modified_no_targets.
  - intros Hempty. by rewrite bundleUpdated_noop by by apply no_modified_no_targets.
Qed.

(** C9: every path among the targets returned by [_buildsInBundle] has
    been registered by that call under the name of the bundle, with the
    answer of one of the two checks, whatever the registry held before; so
    the registry has a mapping for the bundle, and when the targets are
    not empty the guard of [bundleUpdated] does not fire: the pipeline
    runs. *)
Theorem targets_are_registered_and_guard_passes (self : Plugin) (evt : Event) :
  (∀ reg bundle oms ojs p,
     p ∈ (_buildsInBundle reg bundle oms ojs).1 →
     (∃ info,
        bundleMeta (_buildsInBundle reg bundle oms ojs).2 (bundleName bundle) !! p
        = Some info
        ∧ (_checkYUIModule p = Some info ∨ _checkBuildFile p = Some info))
     ∧ is_Some ((_buildsInBundle reg bundle oms ojs).2 !! bundleName bundle))
  ∧ (let out :=
       _buildsInBundle (_bundles self) (bundle evt)
         (filterFilesInBundle (bundle evt) (files evt) (optFilter (options self)))
         (getBundleFiles (bundleName (bundle evt))) in
     out.1 ≠ [] →
     is_Some (out.2 !! bundleName (bundle evt))
     ∧ bundleUpdated self evt
       = runPipeline (withBundles self out.2) (bundle evt) out.1
     ∧ status (bundleUpdated self evt) ≠ NoOp).
Proof.
  assert (Hreg : ∀ reg bundle oms ojs p,
     p ∈ (_buildsInBundle reg bundle oms ojs).1 →
     (∃ info,
        bundleMeta (_buildsInBundle reg bundle oms ojs).2 (bundleName bundle) !! p
        = Some info
        ∧ (_checkYUIModule p = Some info ∨ _checkBuildFile p = Some info))
     ∧ is_Some ((_buildsInBundle reg bundle oms ojs).2 !! bundleName bundle)).
  { intros reg bundle oms ojs p Hp.
    destruct (target_registered _ _ _ _ _ Hp) as (info & Hinfo & Hcheck).
    split; [eauto|]. by eapply bundleMeta_Some_registry. }
  split; [done|]. intros out Hne.
  assert (is_Some (out.2 !! bundleName (bundle evt))) as Hsome.
  { destruct (out.1) as [|p rest] eqn:E; [done|].
    eapply (Hreg _ _ _ _ p). fold out. rewrite E. by left. }
  split; [done|].
  rewrite bundleUpdated_runs by done. split; [done|].
  apply runPipeline_status.
Qed.

Lemma attachServer_bundleName b ld :
  bundleName (_attachServerLoaderData b ld) = bundleName b.
Proof. by destruct ld. Qed.

(** The client manifest that the pipeline leaves on the bundle is the
    [json] of [_createClientLoaderData] called with the name
    ['loader-' + bundleName]. *)
Lemma pipeline_client_manifest self b builds data :
  _createClientLoaderData (_bundles self) b ("loader-" +:+ bundleName b)
  = Present data →
  yui (bundleAfter (runPipeline self b builds)) ≫= client = Some (json data).
Proof.
  intros Hc. unfold runPipeline.
  set (b1 := _attachServerLoaderData b _).
  assert (_createClientLoaderData (_bundles self) b1 ("loader-" +:+ bundleName b)
          = Present data) as ->.
  { unfold _createClientLoaderData in *. unfold b1.
    by rewrite attachServer_bundleName. }
  cbn. destruct (writeFileInBundle _ _ _) as [err|[path|]]; cbn; [done| |].
  - by destruct (Js.truthy path).
  - done.
Qed.

End PipelineFacts.

(** ** POSIX paths *)

(** On POSIX a file whose base name is [build.json] has the extension
    [.json]. *)
Lemma posix_build_json (p : string) :
  @basename Posix.path p = "build.json" → @extname Posix.path p ≠ ".js".
Proof. cbn. unfold Posix.extname. by intros ->. Qed.

(** ** The scenarios of the specification, on the demo bundle *)

Example scenario_module_file :
  Demo.resolve ∅ Demo.app (Some ["/app/src/foo.js"]) (Some [])
  = (["/app/src/foo.js"], {[ "app" := {[ "/app/src/foo.js" := Demo.foo ]} ]}).
Proof. by vm_compute. Qed.

Example scenario_descriptor_edited :
  (Demo.resolve ∅ Demo.app (Some ["/app/widgets/build.json"])
                (Some ["/app/widgets/build.json"])).1
  = ["/app/widgets/build.json"].
Proof. by vm_compute. Qed.

Example scenario_nothing_modified :
  Demo.resolve ∅ Demo.app (Some []) (Some ["/app/widgets/build.json"])
  = ([], {[ "app" := {[ "/app/widgets/build.json" := Demo.widgets ]} ]}).
Proof. by vm_compute. Qed.

(** The range of a descriptor is a set of paths given by a string prefix:
    a file of a sibling directory whose name extends the name of the
    descriptor's directory is in it. *)
Example scenario_prefix_of_sibling :
  (Demo.resolve ∅ Demo.app (Some ["/app/widgets-old/a.js"])
                (Some ["/app/widgets/build.json"])).1
  = ["/app/widgets/build.json"].
Proof. by vm_compute. Qed.

(** A whole event: the loader data is attached, the meta module written and
    handed to the shifter with the targets. *)
Example scenario_pipeline :
  let out :=
    Demo.update Demo.plugin
      (Demo.event [mkModifiedFile "/app/src/foo.js" "src/foo.js"]) in
  status out = Fulfilled
  ∧ effects out
    = [WriteFileInBundle "app" "loader-app.js" "YUI.add('loader-app')";
       ShiftFiles ["/app/src/foo.js"; "/app/build/loader-app.js"]
         (mkShiftOptions "/app/build" ["--no-global-config"] true)]
  ∧ (yui (bundleAfter out) ≫= metaModuleName) = Some "loader-app".
Proof. by vm_compute. Qed.

Example scenario_build_directory :
  (Demo.resolve ∅ Demo.app (Some ["/app/build/widgets/widgets.js"])
                (Some ["/app/widgets/build.json"; "/app/build/build.json"])).1
  = [].
Proof. by vm_compute. Qed.

(** ** The theorems at work on the demo bundle *)

Lemma register_twice_latest_wins_witness :
  let reg' := _register (_register ∅ "app" "/app/a.js" Demo.foo)
                        "app" "/app/a.js" Demo.widgets in
  "/app/b.js" ≠ "/app/a.js"
  ∧ bundleMeta reg' "app" !! "/app/a.js" = Some Demo.widgets
  ∧ bundleMeta reg' "app" !! "/app/b.js" = None.
Proof.
  intros reg'.
  destruct (register_twice_latest_wins ∅ "app" "/app/a.js" Demo.foo Demo.widgets)
    as (Hlast & _ & _ & Hother & _).
  assert ("/app/b.js" ≠ "/app/a.js") as Hne by discriminate.
  split; [exact Hne|]. split; [exact Hlast|].
  unfold reg'. rewrite (Hother "/app/b.js" Hne). reflexivity.
Defined.

Lemma descriptor_targeted_iff_witness :
  "/app/widgets/build.json" ∈ ["/app/package.json"; "/app/widgets/build.json"]
  ∧ @basename Posix.path "/app/widgets/build.json" = "build.json"
  ∧ @_checkBuildFile Demo.shifter "/app/widgets/build.json" = Some Demo.widgets
  ∧ "/app/widgets/build.json"
      ∈ (Demo.resolve ∅ Demo.app (Some ["/app/widgets/js/a.js"])
           (Some ["/app/package.json"; "/app/widgets/build.json"])).1.
Proof.
  assert ("/app/widgets/build.json"
            ∈ ["/app/package.json"; "/app/widgets/build.json"]) as Hin
    by (right; left).
  split; [exact Hin|]. split; [reflexivity|]. split; [reflexivity|].
  apply (@descriptor_targeted_iff Posix.path Demo.shifter ∅ Demo.app
           ["/app/widgets/js/a.js"] _ _ Demo.widgets Hin eq_refl eq_refl).
  right. exists "/app/widgets/js/a.js".
  split; [left|]. split; [reflexivity|]. split; reflexivity.
Defined.

Lemma buildsInBundle_order_insensitive_witness :
  ["/app/src/foo.js"; "/app/src/bar.js"] ≡ₚ ["/app/src/bar.js"; "/app/src/foo.js"]
  ∧ ["/app/widgets/build.json"; "/app/broken/build.json"]
      ≡ₚ ["/app/broken/build.json"; "/app/widgets/build.json"]
  ∧ (Demo.resolve ∅ Demo.app
       (Some ["/app/src/foo.js"; "/app/src/bar.js"])
       (Some ["/app/widgets/build.json"; "/app/broken/build.json"])).1
    = (Demo.resolve Demo.registry Demo.app
         (Some ["/app/src/bar.js"; "/app/src/foo.js"])
         (Some ["/app/broken/build.json"; "/app/widgets/build.json"])).1.
Proof.
  assert (["/app/src/foo.js"; "/app/src/bar.js"]
            ≡ₚ ["/app/src/bar.js"; "/app/src/foo.js"]) as Hm by constructor.
  assert (["/app/widgets/build.json"; "/app/broken/build.json"]
            ≡ₚ ["/app/broken/build.json"; "/app/widgets/build.json"]) as Hj
    by constructor.
  split; [exact Hm|]. split; [exact Hj|].
  exact (proj1 (@buildsInBundle_order_insensitive Posix.path Demo.shifter
                  ∅ Demo.registry Demo.app _ _ _ _ Hm Hj)).
Defined.

Lemma loader_module_never_targeted_witness :
  @basename Posix.path "/app/loader-app.js"
  = "loader-" +:+ bundleName Demo.app +:+ ".js"
  ∧ @_checkYUIModule Demo.shifter "/app/loader-app.js" = Some Demo.loader
  ∧ "/app/loader-app.js"
      ∉ (Demo.resolve ∅ Demo.app
           (Some ["/app/loader-app.js"; "/app/src/foo.js"]) None).1.
Proof.
  split; [reflexivity|]. split; [reflexivity|].
  apply (@loader_module_never_targeted Posix.path Demo.shifter). reflexivity.
Defined.

Lemma client_loader_data_has_meta_entry_witness :
  ∃ data,
    @_createClientLoaderData Demo.builder Demo.registry Demo.app "loader-app"
    = Present data
    ∧ json data !! "loader-app" = Some (MetaEntry "app" "client").
Proof.
  destruct (@_createClientLoaderData Demo.builder Demo.registry Demo.app
              "loader-app") as [why|data] eqn:E.
  - vm_compute in E. discriminate E.
  - exists data. split; [reflexivity|].
    exact (proj1 (@client_loader_data_has_meta_entry Demo.builder Demo.registry
                    Demo.app "loader-app" data E)).
Defined.

Lemma failed_checks_are_skipped_witness :
  let targets :=
    (Demo.resolve ∅ Demo.app
       (Some ["/app/broken/build.json"; "/app/src/bad.js"; "/app/src/foo.js"])
       (Some ["/app/broken/build.json"; "/app/widgets/build.json"])).1 in
  (∀ p, @basename Posix.path p = "build.json" → @extname Posix.path p ≠ ".js")
  ∧ ("/app/broken/build.json" ∉ targets)
  ∧ ("/app/src/bad.js" ∉ targets)
  ∧ "/app/src/foo.js" ∈ targets.
Proof.
  intros targets.
  destruct (@failed_checks_are_skipped Posix.path Demo.shifter ∅ Demo.app
              (Some ["/app/broken/build.json"; "/app/src/bad.js"; "/app/src/foo.js"])
              (Some ["/app/broken/build.json"; "/app/widgets/build.json"])
              posix_build_json)
    as (Hdescriptor & Hmodule & Hothers & _).
  split; [exact posix_build_json|]. split; [|split].
  - apply (Hdescriptor "/app/broken/build.json"); reflexivity.
  - apply (Hmodule "/app/src/bad.js"); reflexivity.
  - apply (Hothers "/app/src/foo.js" Demo.foo); try reflexivity.
    + right; right; left.
    + discriminate.
Defined.

Lemma no_modified_files_is_noop_witness :
  default [] (@filterFilesInBundle specUtils Demo.app [] None) = []
  ∧ status (Demo.update Demo.loaded (Demo.event [])) = NoOp
  ∧ bundleAfter (Demo.update Demo.loaded (Demo.event [])) = Demo.app
  ∧ effects (Demo.update Demo.loaded (Demo.event [])) = [].
Proof.
  split; [reflexivity|].
  apply (proj2 (@no_modified_files_is_noop Posix.path Demo.shifter Demo.builder
                  specUtils Demo.api Demo.loaded (Demo.event []))).
  reflexivity.
Defined.

Lemma targets_are_registered_and_guard_passes_witness :
  let evt := Demo.event [mkModifiedFile "/app/src/foo.js" "src/foo.js"] in
  "/app/src/foo.js"
    ∈ (Demo.resolve ∅ Demo.app (Some ["/app/src/foo.js"]) None).1
  ∧ is_Some ((Demo.resolve ∅ Demo.app (Some ["/app/src/foo.js"]) None).2 !! "app")
  ∧ status (Demo.update Demo.plugin evt) ≠ NoOp.
Proof.
  intros evt.
  destruct (@targets_are_registered_and_guard_passes Posix.path Demo.shifter
              Demo.builder specUtils Demo.api Demo.plugin evt)
    as [Hregistered Hguard].
  assert ("/app/src/foo.js"
            ∈ (Demo.resolve ∅ Demo.app (Some ["/app/src/foo.js"]) None).1) as Hin
    by (vm_compute; left).
  split; [exact Hin|]. split.
  - exact (proj2 (Hregistered ∅ Demo.app _ _ _ Hin)).
  - apply Hguard. vm_compute. discriminate.
Defined.

(** * Further properties of the plugin *)

(** ** The resolver *)

Section ResolverMore.
Context `{PathModule} `{Shifter}.

Lemma register_keeps_bundles reg b k m b0 :
  is_Some (reg !! b0) → is_Some (_register reg b k m !! b0).
Proof.
  intros Hs. destruct (decide (b0 = b)) as [->|Hne].
  - apply register_is_Some.
  - by rewrite register_other_bundle.
Qed.

Lemma first_loop_keeps_bundles b ms st b0 :
  is_Some (st.1 !! b0) → is_Some ((foldl (scanModified b) st ms).1 !! b0).
Proof.
  revert st. induction ms as [|f ms IH]; intros st Hs; cbn; [done|].
  apply IH. rewrite scanModified_eq.
  destruct (validModule b f); cbn; [by apply register_keeps_bundles|done].
Qed.

Lemma second_loop_keeps_bundles bundle ms js st b0 :
  is_Some (st.1 !! b0) →
  is_Some ((foldl (scanDescriptor bundle ms) st js).1 !! b0).
Proof.
  revert st. induction js as [|d js IH]; intros st Hs; cbn; [done|].
  apply IH. rewrite scanDescriptor_eq.
  destruct (validDescriptor d); cbn; [by apply register_keeps_bundles|done].
Qed.

Lemma first_loop_unchanged b ms st :
  (∀ f, f ∈ ms → validModule b f = None) →
  foldl (scanModified b) st ms = st.
Proof.
  revert st. induction ms as [|f ms IH]; intros st Hnone; cbn; [done|].
  rewrite scanModified_eq, (Hnone f) by by left.
  apply IH. intros g Hg. apply Hnone. by right.
Qed.

Lemma second_loop_unchanged bundle ms js st :
  (∀ d, d ∈ js → validDescriptor d = None) →
  foldl (scanDescriptor bundle ms) st js = st.
Proof.
  revert st. induction js as [|d js IH]; intros st Hnone; cbn; [done|].
  rewrite scanDescriptor_eq, (Hnone d) by by left.
  apply IH. intros g Hg. apply Hnone. by right.
Qed.

Lemma validModule_None_iff b f :
  validModule b f = None
  ↔ extname f ≠ ".js" ∨ basename f = "loader-" +:+ b +:+ ".js"
    ∨ _checkYUIModule f = None.
Proof.
  unfold validModule, isCandidateModule.
  destruct (bool_decide_reflect (extname f = ".js"));
    destruct (bool_decide_reflect (basename f ≠ "loader-" +:+ b +:+ ".js"));
    cbn; split; try done; try naive_solver.
  all: intros _; right; left; by apply dec_stable.
Qed.

Lemma validDescriptor_None_iff d :
  validDescriptor d = None
  ↔ basename d ≠ "build.json" ∨ _checkBuildFile d = None.
Proof.
  unfold validDescriptor. case_bool_decide; naive_solver.
Qed.

(** X1: the resolver never invents a path.  A target is a modified file with
    extension [.js], not the meta module, that passes the module check, or a
    json file with base name [build.json] that passes the descriptor check;
    in the second case some file was modified. *)
Theorem targets_come_from_inputs (reg : Registry) (bundle : Bundle)
    (oms ojs : option (list string)) (p : string) :
  p ∈ (_buildsInBundle reg bundle oms ojs).1 →
  (p ∈ default [] oms ∧ extname p = ".js"
   ∧ basename p ≠ "loader-" +:+ bundleName bundle +:+ ".js"
   ∧ is_Some (_checkYUIModule p))
  ∨ (p ∈ default [] ojs ∧ basename p = "build.json"
     ∧ is_Some (_checkBuildFile p) ∧ default [] oms ≠ []).
Proof.
  rewrite targets_elem_of.
  intros [[Hin [info Hv]]|(Hin & [info Hv] & f & Hf & _)].
  - left. apply validModule_inv in Hv as (? & ? & ?). eauto.
  - right. apply validDescriptor_inv in Hv as [? ?].
    repeat split; eauto. intros Hnil. rewrite Hnil in Hf.
    by apply elem_of_nil in Hf.
Qed.

(** X2: a path whose base name is not [build.json] is a target exactly when
    it is a modified file with extension [.js], is not the meta module of the
    bundle, and passes the module check; the json files and the registry
    play no part. *)
Theorem module_file_targeted_iff (reg : Registry) (bundle : Bundle)
    (oms ojs : option (list string)) (f : string) :
  basename f ≠ "build.json" →
  f ∈ (_buildsInBundle reg bundle oms ojs).1
  ↔ f ∈ default [] oms ∧ extname f = ".js"
    ∧ basename f ≠ "loader-" +:+ bundleName bundle +:+ ".js"
    ∧ is_Some (_checkYUIModule f).
Proof.
  intros Hb. rewrite targets_elem_of. split.
  - intros [[Hin [info Hv]]|(_ & [info Hv] & _)].
    + apply validModule_inv in Hv as (? & ? & ?). eauto.
    + by apply validDescriptor_inv in Hv as [? _].
  - intros (Hin & He & Hl & [info Hc]). left. split; [done|].
    exists info. by apply validModule_Some.
Qed.

(** X3: the resolver writes only under the name of the bundle and only
    under the paths it accepts: the mappings of the other bundles are
    untouched, and a key that is neither a modified [.js] file nor a json
    file with base name [build.json] keeps its record or its absence. *)
Theorem registry_frame (reg : Registry) (bundle : Bundle)
    (oms ojs : option (list string)) :
  (∀ b', b' ≠ bundleName bundle →
         (_buildsInBundle reg bundle oms ojs).2 !! b' = reg !! b')
  ∧ (∀ k, (k ∉ default [] oms ∨ extname k ≠ ".js") →
          (k ∉ default [] ojs ∨ basename k ≠ "build.json") →
          bundleMeta (_buildsInBundle reg bundle oms ojs).2 (bundleName bundle) !! k
          = bundleMeta reg (bundleName bundle) !! k).
Proof.
  split.
  - intros b' Hb'. by apply registry_after_other.
  - intros k Hm Hj. rewrite registry_after.
    assert (registeredBy validDescriptor (default [] ojs) k = None) as ->.
    { unfold registeredBy. case_decide as Hin; [|done].
      apply validDescriptor_None_iff. left. by destruct Hj. }
    assert (registeredBy (validModule (bundleName bundle)) (default [] oms) k
            = None) as ->; [|done].
    unfold registeredBy. case_decide as Hin; [|done].
    apply validModule_None_iff. left. by destruct Hm.
Qed.

(** X4: the resolver never removes anything from the registry: a bundle that
    had a mapping still has one, and a cache key that held a record still
    holds one (possibly a newer one). *)
Theorem registry_only_grows (reg : Registry) (bundle : Bundle)
    (oms ojs : option (list string)) (b k : string) :
  (is_Some (reg !! b) →
   is_Some ((_buildsInBundle reg bundle oms ojs).2 !! b))
  ∧ (is_Some (bundleMeta reg b !! k) →
     is_Some (bundleMeta (_buildsInBundle reg bundle oms ojs).2 b !! k)).
Proof.
  split.
  - intros Hs. unfold _buildsInBundle. cbn.
    by apply second_loop_keeps_bundles, first_loop_keeps_bundles.
  - intros Hs. destruct (decide (b = bundleName bundle)) as [->|Hne].
    + rewrite registry_after.
      destruct (registeredBy validDescriptor _ k); cbn; [eauto|].
      destruct (registeredBy (validModule _) _ k); cbn; [eauto|done].
    + unfold bundleMeta in *. by rewrite registry_after_other.
Qed.

(** X5: when no modified file is a valid module and no json file is a valid
    descriptor, the registry is left exactly as it was: not even an empty
    mapping is created for the bundle, and there are no targets. *)
Theorem nothing_valid_nothing_done (reg : Registry) (bundle : Bundle)
    (oms ojs : option (list string)) :
  (∀ f, f ∈ default [] oms → extname f = ".js" →
        basename f ≠ "loader-" +:+ bundleName bundle +:+ ".js" →
        _checkYUIModule f = None) →
  (∀ d, d ∈ default [] ojs → basename d = "build.json" →
        _checkBuildFile d = None) →
  _buildsInBundle reg bundle oms ojs = ([], reg).
Proof.
  intros Hm Hd.
  assert (∀ f, f ∈ Js.sortOrEmpty oms →
               validModule (bundleName bundle) f = None) as Hm'.
  { intros f Hf%sortOrEmpty_elem_of. apply validModule_None_iff.
    destruct (decide (extname f = ".js")); [|by left].
    destruct (decide (basename f = "loader-" +:+ bundleName bundle +:+ ".js"));
      [by right; left|]. right. right. by apply Hm. }
  assert (∀ d, d ∈ Js.sortOrEmpty ojs → validDescriptor d = None) as Hd'.
  { intros d Hin%sortOrEmpty_elem_of. apply validDescriptor_None_iff.
    destruct (decide (basename d = "build.json")); [|by left].
    right. by apply Hd. }
  unfold _buildsInBundle.
  by rewrite (first_loop_unchanged _ _ _ Hm'), (second_loop_unchanged _ _ _ _ Hd').
Qed.

Lemma registry_keeps_bundles reg bundle oms ojs b :
  is_Some (reg !! b) → is_Some ((_buildsInBundle reg bundle oms ojs).2 !! b).
Proof.
  intros Hs. unfold _buildsInBundle. cbn.
  by apply second_loop_keeps_bundles, first_loop_keeps_bundles.
Qed.

Lemma targets_same_elements reg1 reg2 bundle oms1 oms2 ojs1 ojs2 :
  (∀ x, x ∈ (_buildsInBundle reg1 bundle oms1 ojs1).1
        ↔ x ∈ (_buildsInBundle reg2 bundle oms2 ojs2).1) →
  (_buildsInBundle reg1 bundle oms1 ojs1).1
  = (_buildsInBundle reg2 bundle oms2 ojs2).1.
Proof.
  intros Hx. apply (StronglySorted_unique String.le); try apply targets_sorted.
  apply NoDup_Permutation; try apply targets_NoDup. done.
Qed.

(** X6: the resolver is idempotent: a second call on the same bundle and
    lists, from the registry that the first call left, returns the same
    targets and leaves the registry as it found it. *)
Theorem buildsInBundle_idempotent (reg : Registry) (bundle : Bundle)
    (oms ojs : option (list string)) :
  _buildsInBundle (_buildsInBundle reg bundle oms ojs).2 bundle oms ojs
  = _buildsInBundle reg bundle oms ojs.
Proof.
  set (out1 := _buildsInBundle reg bundle oms ojs).
  set (out2 := _buildsInBundle out1.2 bundle oms ojs).
  rewrite (surjective_pairing out2), (surjective_pairing out1). f_equal.
  { apply targets_same_elements. intros x. by rewrite !targets_elem_of. }
  assert (Hk : ∀ k, bundleMeta out2.2 (bundleName bundle) !! k
                    = bundleMeta out1.2 (bundleName bundle) !! k).
  { intros k. unfold out2, out1. rewrite !registry_after.
    destruct (registeredBy validDescriptor _ k); cbn; [done|].
    by destruct (registeredBy (validModule _) _ k). }
  apply map_eq. intros b.
  destruct (decide (b = bundleName bundle)) as [->|Hne];
    [|by apply registry_after_other].
  destruct (out1.2 !! bundleName bundle) as [m1|] eqn:E1.
  - destruct (registry_keeps_bundles out1.2 bundle oms ojs (bundleName bundle))
      as [m2 E2]; [by rewrite E1|].
    fold out2 in E2. rewrite E2. f_equal. apply map_eq. intros k.
    specialize (Hk k). unfold bundleMeta in Hk. by rewrite E1, E2 in Hk.
  - assert (∀ k info, bundleMeta out1.2 (bundleName bundle) !! k ≠ Some info)
      as Hempty.
    { intros k info Hs. apply bundleMeta_Some_registry in Hs.
      rewrite E1 in Hs. by destruct Hs. }
    assert (∀ f, f ∈ Js.sortOrEmpty oms →
                 validModule (bundleName bundle) f = None) as Hm.
    { intros f Hf%sortOrEmpty_elem_of.
      destruct (validModule (bundleName bundle) f) as [info|] eqn:Hv; [|done].
      exfalso. specialize (Hempty f). unfold out1 in Hempty.
      rewrite registry_after in Hempty.
      rewrite (registeredBy_elem (validModule _)), Hv in Hempty by done.
      destruct (registeredBy validDescriptor _ f); cbn in Hempty;
        by eapply Hempty. }
    assert (∀ d, d ∈ Js.sortOrEmpty ojs → validDescriptor d = None) as Hd.
    { intros d Hin%sortOrEmpty_elem_of.
      destruct (validDescriptor d) as [info|] eqn:Hv; [|done].
      exfalso. specialize (Hempty d). unfold out1 in Hempty.
      rewrite registry_after in Hempty.
      rewrite (registeredBy_elem validDescriptor), Hv in Hempty by done.
      by eapply Hempty. }
    unfold out2, _buildsInBundle.
    rewrite (first_loop_unchanged _ _ _ Hm), (second_loop_unchanged _ _ _ _ Hd).
    cbn [fst snd]. exact E1.
Qed.

(** X7: more input never gives fewer targets: when every modified file of
    one call is a modified file of another, and likewise for the json files,
    every target of the first call is a target of the second, whatever the
    registries. *)
Theorem targets_monotone (reg1 reg2 : Registry) (bundle : Bundle)
    (ms ms' js js' : list string) :
  ms ⊆ ms' → js ⊆ js' →
  (_buildsInBundle reg1 bundle (Some ms) (Some js)).1
  ⊆ (_buildsInBundle reg2 bundle (Some ms') (Some js')).1.
Proof.
  intros Hm Hj x. rewrite !targets_elem_of. cbn. unfold marked.
  intros [[? ?]|(? & ? & f & ? & ?)]; [left|right]; eauto 10.
Qed.

(** X8: the targets depend on the two lists only through the paths that
    occur in them: repeating a path, like reordering, changes nothing. *)
Theorem targets_ignore_repetitions (reg1 reg2 : Registry) (bundle : Bundle)
    (ms ms' js js' : list string) :
  (∀ x, x ∈ ms ↔ x ∈ ms') → (∀ x, x ∈ js ↔ x ∈ js') →
  (_buildsInBundle reg1 bundle (Some ms) (Some js)).1
  = (_buildsInBundle reg2 bundle (Some ms') (Some js')).1.
Proof.
  intros Hm Hj. apply targets_same_elements. intros x.
  rewrite !targets_elem_of. cbn. unfold marked.
  setoid_rewrite Hm. by setoid_rewrite Hj.
Qed.

End ResolverMore.


(** ** The loader metadata compiler *)

Section CompilerMore.
Context `{BuilderClass}.

Lemma filterMeta_entry flt meta k entry :
  filterMeta flt meta !! k = Some entry
  ↔ ∃ m, meta !! k = Some m
         ∧ (∃ v bd, builds m !! v = Some bd ∧ passes flt m bd = true)
         ∧ entry = mkMod (name m) (buildfile m) (passing flt m).
Proof.
  rewrite filterMeta_lookup. destruct (meta !! k) as [m|]; cbn.
  - rewrite filtered_Some. naive_solver.
  - naive_solver.
Qed.

(** X9: whatever the builder, [_getLoaderData] answers loader data exactly
    when some registered build passes the filter and the builder, called
    with the name ['loader-' + bundleName], the group [bundleName] and the
    filtered structure, produces data with a non-empty [json]; the answer is
    then the builder's data.  It answers [0] exactly when the builder's
    [json] is empty.  The filtered structure holds, under each registry key
    with a passing build, the module's [name] and [buildfile] and its passing
    builds. *)
Theorem getLoaderData_result_is_builders (reg : Registry) (b : string)
    (flt : ModuleFilter) :
  let buildMeta := filterMeta flt (bundleMeta reg b) in
  (∀ data, _getLoaderData reg b flt = Present data
           ↔ buildMeta ≠ ∅
             ∧ compile ("loader-" +:+ b) b buildMeta = Some data
             ∧ json data ≠ ∅)
  ∧ (_getLoaderData reg b flt = Absent Js.zero
     ↔ buildMeta ≠ ∅
       ∧ ∃ data, compile ("loader-" +:+ b) b buildMeta = Some data
                 ∧ json data = ∅)
  ∧ (∀ k entry, buildMeta !! k = Some entry
                ↔ ∃ m, bundleMeta reg b !! k = Some m
                       ∧ (∃ v bd, builds m !! v = Some bd
                                  ∧ passes flt m bd = true)
                       ∧ name entry = name m ∧ buildfile entry = buildfile m
                       ∧ ∀ v bd, builds entry !! v = Some bd
                                 ↔ builds m !! v = Some bd
                                   ∧ passes flt m bd = true).
Proof.
  intros buildMeta. split; [|split].
  - intros data. unfold _getLoaderData. fold buildMeta.
    rewrite <- (map_size_non_empty_iff buildMeta).
    rewrite <- (map_size_non_empty_iff (json data)).
    case_decide as Hs; [naive_solver|].
    destruct (compile _ _ _) as [d|]; [|naive_solver].
    case_decide as Hj; [naive_solver congruence|].
    split; [by intros [= ->]|]. by intros (_ & [= ->] & _).
  - unfold _getLoaderData. fold buildMeta.
    rewrite <- (map_size_non_empty_iff buildMeta).
    case_decide as Hs; [naive_solver|].
    destruct (compile _ _ _) as [d|]; [|naive_solver].
    case_decide as Hj.
    + split; [|done]. intros _. split; [done|].
      exists d. split; [done|]. by apply map_size_empty_iff.
    + split; [done|]. intros (_ & d' & [= <-] & Hd).
      by apply map_size_empty_iff in Hd.
  - intros k entry. unfold buildMeta. rewrite filterMeta_entry. split.
    + intros (m & Hk & Hex & ->). exists m. do 4 (split; [done|]).
      intros v bd. cbn. apply passing_lookup.
    + intros (m & Hk & Hex & Hn & Hb & Hbuilds). exists m.
      do 2 (split; [done|]). destruct entry as [n bf bs]. cbn in *. subst.
      f_equal. apply map_eq. intros v. apply option_eq. intros bd.
      by rewrite Hbuilds, passing_lookup.
Qed.

Lemma passing_no_filter m : passing None m = builds m.
Proof. unfold passing. by apply map_filter_id. Qed.

(** X10: without a filter the loops keep a registered module as it is,
    under its key, when it has a build, and drop it when its [builds] is
    empty: a module without builds never reaches the builder. *)
Theorem no_filter_drops_modules_without_builds
    (meta : gmap string ModRecord) (k : string) (entry : ModRecord) :
  filterMeta None meta !! k = Some entry
  ↔ meta !! k = Some entry ∧ builds entry ≠ ∅.
Proof.
  rewrite filterMeta_lookup. unfold filtered.
  destruct (meta !! k) as [m|]; cbn; [|naive_solver].
  rewrite passing_no_filter. destruct m as [n bf bs]. cbn.
  case_decide; naive_solver.
Qed.

Lemma serverFilter_or_clientFilter n c :
  serverFilter n c = true ∨ clientFilter n c = true.
Proof.
  unfold serverFilter, clientFilter. rewrite !bool_decide_eq_true.
  destruct (decide (affinity c = Some "client")) as [->|]; [right|left]; done.
Qed.

(** X11: between them the server view and the client view lose nothing:
    every build of every registered module is in the filtered structure of
    the server filter or in that of the client filter, under the key of its
    module; it is in both exactly when its affinity is neither ['client']
    nor ['server']. *)
Theorem views_cover_every_build (meta : gmap string ModRecord)
    (k : string) (m : ModRecord) (v : string) (bd : Build) :
  meta !! k = Some m → builds m !! v = Some bd →
  let inView flt :=
    ∃ entry, filterMeta (Some flt) meta !! k = Some entry
             ∧ builds entry !! v = Some bd in
  (inView serverFilter ∨ inView clientFilter)
  ∧ (inView serverFilter ∧ inView clientFilter
     ↔ affinity (default emptyConfig (config bd)) ≠ Some "client"
       ∧ affinity (default emptyConfig (config bd)) ≠ Some "server").
Proof.
  intros Hk Hv inView.
  assert (Hin : ∀ flt, inView flt
                       ↔ flt (name m) (default emptyConfig (config bd)) = true).
  { intros flt. unfold inView. split.
    - intros (entry & (m' & Hk' & _ & ->)%filterMeta_entry & Hl).
      cbn in Hl. apply passing_lookup in Hl as [_ Hp]. by simplify_eq.
    - intros Hp. exists (mkMod (name m) (buildfile m) (passing (Some flt) m)).
      split; [|by apply passing_lookup].
      apply filterMeta_entry. exists m. split; [done|]. split; [|done].
      by exists v, bd. }
  rewrite !Hin. unfold serverFilter, clientFilter.
  rewrite !bool_decide_eq_true. split; [|done].
  destruct (decide (affinity (default emptyConfig (config bd)) = Some "client"))
    as [->|]; [right|left]; done.
Qed.

(** X13: registering a module none of whose builds passes a filter, under a
    key that held no record or a record without a passing build, does not
    change what [_getLoaderData] answers under that filter. *)
Theorem registering_filtered_out_module (reg : Registry) (b k : string)
    (m : ModRecord) (flt : ModuleFilter) :
  (∀ v bd, builds m !! v = Some bd → passes flt m bd = false) →
  (∀ old v bd, bundleMeta reg b !! k = Some old →
               builds old !! v = Some bd → passes flt old bd = false) →
  _getLoaderData (_register reg b k m) b flt = _getLoaderData reg b flt.
Proof.
  intros Hnew Hold. unfold _getLoaderData. rewrite bundleMeta_register.
  assert (filterMeta flt (<[k:=m]> (bundleMeta reg b))
          = filterMeta flt (bundleMeta reg b)) as ->; [|done].
  apply map_eq. intros key. rewrite !filterMeta_lookup.
  destruct (decide (key = k)) as [->|Hne]; [|by rewrite lookup_insert_ne].
  rewrite lookup_insert_eq. cbn.
  rewrite (proj2 (filtered_None flt m)) by done.
  destruct (bundleMeta reg b !! k) as [old|] eqn:E; [cbn|done].
  symmetry. apply filtered_None. eauto.
Qed.

End CompilerMore.

Section CompilerAndResolver.
Context `{PathModule} `{Shifter} `{BuilderClass}.

(** X12: the loader data of a bundle depends on the registry only through
    the mapping of that bundle: a bundle without a mapping has none
    ([undefined]), and neither a registration for another bundle nor a whole
    run of the resolver for another bundle changes the answer. *)
Theorem loader_data_of_other_bundles (reg : Registry) (b : string)
    (flt : ModuleFilter) :
  (reg !! b = None → _getLoaderData reg b flt = Absent Js.undefined)
  ∧ (∀ b' k m, b' ≠ b →
       _getLoaderData (_register reg b' k m) b flt = _getLoaderData reg b flt)
  ∧ (∀ bundle oms ojs, bundleName bundle ≠ b →
       _getLoaderData (_buildsInBundle reg bundle oms ojs).2 b flt
       = _getLoaderData reg b flt).
Proof.
  split; [|split].
  - intros Hb. apply getLoaderData_absent. intros k m v bd.
    unfold bundleMeta. rewrite Hb. cbn. by rewrite lookup_empty.
  - intros b' k m Hne. unfold _getLoaderData, bundleMeta.
    by rewrite register_other_bundle.
  - intros bundle oms ojs Hne. unfold _getLoaderData, bundleMeta.
    by rewrite registry_after_other.
Qed.

End CompilerAndResolver.


(** ** Attaching loader data *)

(** X14: attaching a server view and a client view gives the same bundle in
    either order: [yui] then holds both manifests, the meta-module fields it
    had before (none on a bundle without [yui]), and the name and the build
    directory of the bundle are kept. *)
Theorem attach_views_commute `{LocatorApi} (bundle : Bundle)
    (destPath : string) (serverData clientData : LoaderData) :
  let serverFirst :=
    (_attachClientLoaderData
       (_attachServerLoaderData bundle (Present serverData))
       destPath (Present clientData)).1.1 in
  let clientFirst :=
    _attachServerLoaderData
      (_attachClientLoaderData bundle destPath (Present clientData)).1.1
      (Present serverData) in
  serverFirst = clientFirst
  ∧ yui serverFirst
    = Some (mkYui (Some (json serverData)) (Some (json clientData))
                  (yui bundle ≫= metaModuleFullpath)
                  (yui bundle ≫= metaModuleName))
  ∧ bundleName serverFirst = bundleName bundle
  ∧ buildDirectory serverFirst = buildDirectory bundle.
Proof. destruct bundle as [n d [y|]]; by repeat split. Qed.

(** ** The pipeline *)

Section PipelineMore.
Context `{PathModule} `{Shifter} `{BuilderClass} `{Utils} `{LocatorApi}.

Lemma createClient_bundleName reg b1 b2 moduleName :
  bundleName b1 = bundleName b2 →
  _createClientLoaderData reg b1 moduleName
  = _createClientLoaderData reg b2 moduleName.
Proof. intros Hn. unfold _createClientLoaderData. by rewrite Hn. Qed.

Lemma shiftEverything_buildDirectory self b1 b2 css builds :
  buildDirectory b1 = buildDirectory b2 →
  _shiftEverything self b1 css builds = _shiftEverything self b2 css builds.
Proof. intros Hd. unfold _shiftEverything. by rewrite Hd. Qed.

Lemma attachServer_buildDirectory b ld :
  buildDirectory (_attachServerLoaderData b ld) = buildDirectory b.
Proof. by destruct ld. Qed.

(** The pipeline when the client view is absent. *)
Lemma runPipeline_client_absent self b builds why :
  _createClientLoaderData (_bundles self) b ("loader-" +:+ bundleName b)
  = Absent why →
  runPipeline self b builds
  = mkOutcome
      (match (_shiftEverything self b (cssproc (options self)) builds).1 with
       | Some e => Failed e
       | None => Fulfilled
       end)
      self
      (_attachServerLoaderData b (_createServerLoaderData (_bundles self) b))
      (_shiftEverything self b (cssproc (options self)) builds).2.
Proof.
  intros Hc. unfold runPipeline.
  set (b1 := _attachServerLoaderData b _).
  rewrite (createClient_bundleName _ b1 b) by apply attachServer_bundleName.
  rewrite Hc. cbn -[_shiftEverything].
  rewrite (shiftEverything_buildDirectory self b1 b)
    by apply attachServer_buildDirectory.
  by destruct (_shiftEverything self b _ builds) as [[e|] fx].
Qed.

(** The pipeline when the client view is present, up to the write. *)
Lemma runPipeline_client_present self b builds data :
  _createClientLoaderData (_bundles self) b ("loader-" +:+ bundleName b)
  = Present data →
  let moduleName := "loader-" +:+ bundleName b in
  let b1 := _attachServerLoaderData b (_createServerLoaderData (_bundles self) b) in
  let b2 := withYui b1 (setClient (json data) (default emptyYui (yui b1))) in
  let write := WriteFileInBundle (bundleName b) (moduleName +:+ ".js") (js data) in
  let shifted (b3 : Bundle) (files : list string) :=
    mkOutcome
      (match (_shiftEverything self b (cssproc (options self)) files).1 with
       | Some e => Failed e
       | None => Fulfilled
       end)
      self b3
      (write :: (_shiftEverything self b (cssproc (options self)) files).2) in
  runPipeline self b builds
  = match writeFileInBundle (bundleName b) (moduleName +:+ ".js") (js data) with
    | inl err => mkOutcome (Failed err) self b2 [write]
    | inr (Some path) =>
        if Js.truthy path
        then shifted
               (withYui b2 (setMetaModule path moduleName
                              (setClient (json data) (default emptyYui (yui b1)))))
               (builds ++ [path])%list
        else shifted b2 builds
    | inr None => shifted b2 builds
    end.
Proof.
  intros Hc moduleName. fold moduleName in Hc.
  intros b1 b2 write shifted. unfold runPipeline.
  fold moduleName. fold b1.
  rewrite (createClient_bundleName _ b1 b) by apply attachServer_bundleName.
  rewrite Hc. cbn -[_shiftEverything].
  assert (Hn : bundleName b1 = bundleName b) by apply attachServer_bundleName.
  rewrite Hn. fold write. fold b2.
  assert (Hdir : ∀ b3 files, buildDirectory b3 = buildDirectory b →
            _shiftEverything self b3 (cssproc (options self)) files
            = _shiftEverything self b (cssproc (options self)) files)
    by (intros; by apply shiftEverything_buildDirectory).
  assert (Hb1 : buildDirectory b1 = buildDirectory b)
    by apply attachServer_buildDirectory.
  destruct (writeFileInBundle _ _ _) as [err|[path|]]; cbn -[_shiftEverything];
    [done| |].
  - destruct (Js.truthy path); cbn -[_shiftEverything];
      rewrite Hdir by done; unfold shifted;
      by destruct (_shiftEverything self b _ _) as [[e|] fx].
  - rewrite Hdir by done. unfold shifted.
    by destruct (_shiftEverything self b _ _) as [[e|] fx].
Qed.

(** The one call of [_shiftEverything]. *)
Lemma shiftEverything_call self b css files :
  ∃ opts,
    _shiftEverything self b css files
    = (shiftFiles files opts, [ShiftFiles files opts])
    ∧ buildDir opts = buildDirectory b
    ∧ cache opts = optCache (options self)
    ∧ ∃ extra, args opts = (describeArgs self ++ extra)%list.
Proof.
  unfold _shiftEverything. eexists. split; [reflexivity|]. cbn.
  do 2 (split; [done|]).
  destruct css as [base|]; [destruct (Js.truthy base)|]; eauto.
  all: exists []; by rewrite app_nil_r.
Qed.

Lemma runPipeline_cases self b :
  (∃ why, _createClientLoaderData (_bundles self) b ("loader-" +:+ bundleName b)
          = Absent why)
  ∨ (∃ data, _createClientLoaderData (_bundles self) b ("loader-" +:+ bundleName b)
             = Present data).
Proof. destruct (_createClientLoaderData _ _ _); eauto. Qed.

Ltac shift_cases :=
  cbn zeta;
  repeat match goal with
         | |- context [_shiftEverything ?s ?b ?c ?f] =>
             destruct (_shiftEverything s b c f) as [[?|] ?]
         end.

(** X15: inside the pipeline the assignment
    [bundle.yui.metaModuleFullpath = newfile] of [_attachClientMetaData]
    never meets a bundle without [yui]: [newfile] is truthy only when the
    client loader data was present, and then [_attachClientLoaderData] has
    created [bundle.yui].  [Threw] is the failure of that assignment. *)
Theorem meta_module_assignment_is_safe (self : Plugin) (evt : Event) :
  status (bundleUpdated self evt) ≠ Threw
  ∧ ∀ b builds, status (runPipeline self b builds) ≠ Threw.
Proof.
  assert (Hrun : ∀ self b builds, status (runPipeline self b builds) ≠ Threw).
  { clear. intros self b builds.
    destruct (runPipeline_cases self b) as [[why Hc]|[data Hc]].
    - rewrite (runPipeline_client_absent _ _ _ _ Hc). by shift_cases.
    - rewrite (runPipeline_client_present _ _ _ _ Hc). cbn zeta.
      destruct (writeFileInBundle _ _ _) as [err|[path|]];
        [|destruct (Js.truthy path)|]; by shift_cases. }
  split; [|apply Hrun].
  unfold bundleUpdated. destruct (_buildsInBundle _ _ _ _) as [builds reg'].
  destruct (_ || _); [done|apply Hrun].
Qed.

(** X16: when the write of the meta module is rejected, the pipeline stops
    there: the promise is rejected with the error of the write, the shifter
    is not called, and nothing is rolled back: the client manifest stays
    attached to the bundle and the plugin keeps its registry. *)
Theorem write_failure_stops_pipeline (self : Plugin) (b : Bundle)
    (builds : list string) (data : LoaderData) (err : string) :
  _createClientLoaderData (_bundles self) b ("loader-" +:+ bundleName b)
  = Present data →
  writeFileInBundle (bundleName b) ("loader-" +:+ bundleName b +:+ ".js") (js data)
  = inl err →
  let out := runPipeline self b builds in
  status out = Failed err
  ∧ effects out
    = [WriteFileInBundle (bundleName b) ("loader-" +:+ bundleName b +:+ ".js")
                         (js data)]
  ∧ yui (bundleAfter out) ≫= client = Some (json data)
  ∧ pluginAfter out = self.
Proof.
  intros Hc Hw out. unfold out.
  rewrite (runPipeline_client_present _ _ _ _ Hc). cbn zeta.
  replace (("loader-" +:+ bundleName b) +:+ ".js")
    with ("loader-" +:+ bundleName b +:+ ".js") by done.
  by rewrite Hw.
Qed.

(** X17: when the write resolves to a path, that path is appended to the
    targets and the shifter is called once, after the write, on the targets
    followed by the path and with the build directory of the bundle; the
    bundle records the path and the name ['loader-' + bundleName] of the meta
    module, and the promise is fulfilled unless the shifter reports an
    error. *)
Theorem written_meta_module_is_shifted (self : Plugin) (b : Bundle)
    (builds : list string) (data : LoaderData) (path : string) :
  _createClientLoaderData (_bundles self) b ("loader-" +:+ bundleName b)
  = Present data →
  writeFileInBundle (bundleName b) ("loader-" +:+ bundleName b +:+ ".js") (js data)
  = inr (Some path) →
  path ≠ "" →
  let out := runPipeline self b builds in
  ∃ opts,
    effects out
    = [WriteFileInBundle (bundleName b) ("loader-" +:+ bundleName b +:+ ".js")
                         (js data);
       ShiftFiles (builds ++ [path])%list opts]
    ∧ buildDir opts = buildDirectory b
    ∧ status out = match shiftFiles (builds ++ [path])%list opts with
                   | Some e => Failed e
                   | None => Fulfilled
                   end
    ∧ yui (bundleAfter out) ≫= metaModuleFullpath = Some path
    ∧ yui (bundleAfter out) ≫= metaModuleName = Some ("loader-" +:+ bundleName b)
    ∧ yui (bundleAfter out) ≫= client = Some (json data).
Proof.
  intros Hc Hw Hp out. unfold out.
  rewrite (runPipeline_client_present _ _ _ _ Hc). cbn zeta.
  replace (("loader-" +:+ bundleName b) +:+ ".js")
    with ("loader-" +:+ bundleName b +:+ ".js") by done.
  rewrite Hw.
  assert (Js.truthy path = true) as ->.
  { unfold Js.truthy. by rewrite bool_decide_eq_false_2. }
  destruct (shiftEverything_call self b (cssproc (options self))
              (builds ++ [path])%list) as (opts & -> & Hdir & _).
  exists opts. by cbn.
Qed.

(** X18: when there is no client view, nothing is written and the shifter
    is called once on exactly the targets; the bundle is the one that the
    server step left, so its client manifest and its meta-module fields are
    those it had before the event. *)
Theorem no_client_view_no_write (self : Plugin) (b : Bundle)
    (builds : list string) (why : Js.Falsy) :
  _createClientLoaderData (_bundles self) b ("loader-" +:+ bundleName b)
  = Absent why →
  let out := runPipeline self b builds in
  ∃ opts,
    effects out = [ShiftFiles builds opts]
    ∧ buildDir opts = buildDirectory b
    ∧ status out = match shiftFiles builds opts with
                   | Some e => Failed e
                   | None => Fulfilled
                   end
    ∧ bundleAfter out
      = _attachServerLoaderData b (_createServerLoaderData (_bundles self) b)
    ∧ yui (bundleAfter out) ≫= client = yui b ≫= client
    ∧ yui (bundleAfter out) ≫= metaModuleFullpath = yui b ≫= metaModuleFullpath.
Proof.
  intros Hc out. unfold out. rewrite (runPipeline_client_absent _ _ _ _ Hc).
  destruct (shiftEverything_call self b (cssproc (options self)) builds)
    as (opts & -> & Hdir & _).
  exists opts. cbn. do 4 (split; [done|]).
  destruct (_createServerLoaderData _ _); destruct b as [n d [y|]]; by cbn.
Qed.

(** X19: whatever the outcome, the pipeline leaves the plugin with its
    arguments and options and with the registry that the resolver produced
    (a failure does not undo the registrations), and the bundle keeps its
    name and its build directory. *)
Theorem bundleUpdated_keeps_plugin_and_bundle (self : Plugin) (evt : Event) :
  let out := bundleUpdated self evt in
  pluginAfter out
  = withBundles self
      (_buildsInBundle (_bundles self) (bundle evt)
         (filterFilesInBundle (bundle evt) (files evt) (optFilter (options self)))
         (getBundleFiles (bundleName (bundle evt)))).2
  ∧ describeArgs (pluginAfter out) = describeArgs self
  ∧ options (pluginAfter out) = options self
  ∧ bundleName (bundleAfter out) = bundleName (bundle evt)
  ∧ buildDirectory (bundleAfter out) = buildDirectory (bundle evt).
Proof.
  assert (Hrun : ∀ self b builds,
            pluginAfter (runPipeline self b builds) = self
            ∧ bundleName (bundleAfter (runPipeline self b builds)) = bundleName b
            ∧ buildDirectory (bundleAfter (runPipeline self b builds))
              = buildDirectory b).
  { clear. intros self b builds.
    destruct (runPipeline_cases self b) as [[why Hc]|[data Hc]].
    - rewrite (runPipeline_client_absent _ _ _ _ Hc). shift_cases; cbn;
        by rewrite attachServer_bundleName, attachServer_buildDirectory.
    - rewrite (runPipeline_client_present _ _ _ _ Hc). cbn zeta.
      destruct (writeFileInBundle _ _ _) as [err|[path|]];
        [|destruct (Js.truthy path)|]; shift_cases; cbn;
        by rewrite attachServer_bundleName, attachServer_buildDirectory. }
  intros out. unfold out, bundleUpdated.
  destruct (_buildsInBundle _ _ _ _) as [builds reg']. cbn [fst snd].
  destruct (_ || _); [done|].
  destruct (Hrun (withBundles self reg') (bundle evt) builds) as (-> & -> & ->).
  done.
Qed.

(** X20: after the pipeline the server manifest of the bundle is the [json]
    of the server view when there is one, and otherwise the manifest that
    the bundle had before; the later stages do not touch it. *)
Theorem pipeline_server_manifest (self : Plugin) (b : Bundle)
    (builds : list string) :
  yui (bundleAfter (runPipeline self b builds)) ≫= server
  = match _createServerLoaderData (_bundles self) b with
    | Present data => Some (json data)
    | Absent _ => yui b ≫= server
    end.
Proof.
  destruct (runPipeline_cases self b) as [[why Hc]|[data Hc]].
  - rewrite (runPipeline_client_absent _ _ _ _ Hc). shift_cases; cbn;
      destruct (_createServerLoaderData _ _); by destruct b as [n d [y|]].
  - rewrite (runPipeline_client_present _ _ _ _ Hc). cbn zeta.
    destruct (writeFileInBundle _ _ _) as [err|[path|]];
      [|destruct (Js.truthy path)|]; shift_cases; cbn;
      destruct (_createServerLoaderData _ _); by destruct b as [n d [y|]].
Qed.

End PipelineMore.

(** ** The call of the shifter *)

Lemma lastChar_append_slash c : Js.lastChar (c +:+ "/") = "/".
Proof.
  induction c as [|a c IH]; [done|].
  change (String a c +:+ "/") with (String a (c +:+ "/")).
  destruct (c +:+ "/") as [|a' rest] eqn:E; [by destruct c|exact IH].
Qed.

Lemma truthy_nonempty c : Js.truthy c = true ↔ c ≠ "".
Proof.
  unfold Js.truthy. rewrite negb_true_iff, bool_decide_eq_false. done.
Qed.

Section ShifterCall.
Context `{PathModule} `{Shifter}.

(** X21: the [--cssproc] argument.  A non-empty [cssproc] adds, after the
    arguments of the plugin, [--cssproc] and the base followed by the base
    name of the build directory, with exactly one slash supplied when the
    base does not end with one: a base with and without its trailing slash
    give the same call.  An empty [cssproc] is treated as an absent one: the
    arguments are those of the plugin. *)
Theorem cssproc_argument (self : Plugin) (bundle : Bundle)
    (builds : list string) (c : string) :
  (c ≠ "" →
   ∃ base,
     (if bool_decide (Js.lastChar c = "/") then base = c else base = c +:+ "/")
     ∧ _shiftEverything self bundle (Some c) builds
       = let opts :=
           mkShiftOptions (buildDirectory bundle)
             (describeArgs self
                ++ ["--cssproc"; base +:+ basename (buildDirectory bundle)])%list
             (optCache (options self)) in
         (shiftFiles builds opts, [ShiftFiles builds opts]))
  ∧ (c ≠ "" → Js.lastChar c ≠ "/" →
     _shiftEverything self bundle (Some (c +:+ "/")) builds
     = _shiftEverything self bundle (Some c) builds)
  ∧ _shiftEverything self bundle (Some "") builds
    = _shiftEverything self bundle None builds
  ∧ _shiftEverything self bundle None builds
    = let opts :=
        mkShiftOptions (buildDirectory bundle) (describeArgs self)
                       (optCache (options self)) in
      (shiftFiles builds opts, [ShiftFiles builds opts]).
Proof.
  split; [|split; [|split]]; try done.
  - intros Hc%truthy_nonempty. unfold _shiftEverything. rewrite Hc.
    case_bool_decide; eauto.
  - intros Hc Hlast. unfold _shiftEverything.
    assert (Js.truthy (c +:+ "/") = true) as ->
      by (apply truthy_nonempty; by destruct c).
    apply truthy_nonempty in Hc as ->.
    rewrite lastChar_append_slash.
    rewrite bool_decide_eq_true_2 by done.
    by rewrite (bool_decide_eq_false_2 (Js.lastChar c = "/")).
Qed.

End ShifterCall.

(** ** The constructor *)

Section Constructor.
Context `{RegExpModule}.

(** X22: the arguments that the constructor computes.  They start with
    [--no-global-config] and end with [config.args], so that the custom
    arguments come last; in between, [--no-coverage] and [--no-lint] stand
    for the toggles that are off, and [--silent] and [--quiet] are present
    whenever [utils.debugMode] is off, whatever the configuration says, and
    otherwise when their toggle is on.  A new plugin has an empty
    registry. *)
Theorem constructor_arguments (debugMode : bool) (cfg : option PluginConfig) :
  let config := default emptyPluginConfig cfg in
  ∃ flags,
    describeArgs (PluginClass debugMode cfg)
    = ("--no-global-config" :: flags ++ default [] (cfgArgs config))%list
    ∧ flags ⊆ ["--no-coverage"; "--no-lint"; "--silent"; "--quiet"]
    ∧ ("--no-coverage" ∈ flags ↔ cfgCoverage config = false)
    ∧ ("--no-lint" ∈ flags ↔ cfgLint config = false)
    ∧ ("--silent" ∈ flags ↔ debugMode = false ∨ cfgSilent config = true)
    ∧ ("--quiet" ∈ flags ↔ debugMode = false ∨ cfgQuiet config = true)
    ∧ _bundles (PluginClass debugMode cfg) = ∅.
Proof.
  intros config. exists (tail (shifterFlags debugMode config)).
  unfold PluginClass. fold config. cbn [describeArgs _bundles].
  unfold shifterFlags.
  destruct debugMode, (cfgCoverage config), (cfgLint config),
    (cfgSilent config), (cfgQuiet config); cbn.
  all: split; [done|]; split; [set_solver|].
  all: rewrite ?elem_of_cons, ?elem_of_nil; naive_solver.
Qed.

End Constructor.

Section ConstructorAndShifter.
Context `{RegExpModule} `{PathModule} `{Shifter}.

(** X23: what a plugin made by the constructor hands to the shifter: the
    cache flag of the configuration, which is on when the configuration has
    no [cache] property; the build directory of the bundle; and arguments
    that start with [--no-global-config], contain [config.args] after the
    computed flags, and end with the [--cssproc] pair exactly when
    [config.cssproc] is a non-empty string. *)
Theorem constructed_plugin_shifter_call (debugMode : bool)
    (cfg : option PluginConfig) (bundle : Bundle) (builds : list string) :
  let config := default emptyPluginConfig cfg in
  let self := PluginClass debugMode cfg in
  ∃ opts flags extra,
    _shiftEverything self bundle (cssproc (options self)) builds
    = (shiftFiles builds opts, [ShiftFiles builds opts])
    ∧ cache opts = default true (cfgCache config)
    ∧ buildDir opts = buildDirectory bundle
    ∧ args opts
      = ("--no-global-config" :: flags ++ default [] (cfgArgs config) ++ extra)%list
    ∧ (extra = [] ↔ cfgCssproc config = None ∨ cfgCssproc config = Some "")
    ∧ (extra ≠ [] → ∃ value, extra = ["--cssproc"; value]).
Proof.
  intros config self.
  assert (∃ flags, describeArgs self
            = ("--no-global-config" :: flags ++ default [] (cfgArgs config))%list)
    as [flags Hflags].
  { exists (tail (shifterFlags debugMode config)).
    unfold self, PluginClass. fold config. cbn [describeArgs].
    unfold shifterFlags.
    by destruct (negb (cfgCoverage config)), (negb (cfgLint config)),
      (negb debugMode || cfgSilent config), (negb debugMode || cfgQuiet config). }
  unfold _shiftEverything. rewrite Hflags.
  change (cssproc (options self)) with (cfgCssproc config).
  change (optCache (options self)) with (default true (cfgCache config)).
  destruct (cfgCssproc config) as [base|]; [destruct (Js.truthy base) eqn:Ht|].
  - eexists _, flags, _. split; [reflexivity|]. cbn.
    do 2 (split; [done|]). split; [by rewrite <- app_assoc|].
    split; [|eauto]. split; [done|]. intros [?|[= ->]]; done.
  - eexists _, flags, []. split; [reflexivity|]. cbn.
    do 2 (split; [done|]). split; [by rewrite app_nil_r|].
    split; [|done]. split; [|done]. intros _. right.
    destruct (decide (base = "")) as [->|Hne]; [done|].
    apply truthy_nonempty in Hne. congruence.
  - eexists _, flags, []. split; [reflexivity|]. cbn.
    do 2 (split; [done|]). split; [by rewrite app_nil_r|].
    split; [|done]. split; [|done]. by left.
Qed.

End ConstructorAndShifter.

(** ** The further properties at work on the demo bundle *)

Lemma targets_come_from_inputs_witness :
  "/app/src/foo.js"
    ∈ (Demo.resolve ∅ Demo.app (Some ["/app/src/foo.js"]) (Some [])).1
  ∧ @extname Posix.path "/app/src/foo.js" = ".js"
  ∧ is_Some (@_checkYUIModule Demo.shifter "/app/src/foo.js").
Proof.
  assert ("/app/src/foo.js"
            ∈ (Demo.resolve ∅ Demo.app (Some ["/app/src/foo.js"]) (Some [])).1)
    as Hin by (vm_compute; left).
  split; [exact Hin|].
  destruct (@targets_come_from_inputs Posix.path Demo.shifter ∅ Demo.app
              _ _ _ Hin) as [(_ & He & _ & Hc)|(Hj & _)].
  - split; [exact He|exact Hc].
  - cbn in Hj. apply elem_of_nil in Hj. destruct Hj.
Defined.

Lemma module_file_targeted_iff_witness :
  @basename Posix.path "/app/src/foo.js" ≠ "build.json"
  ∧ "/app/src/foo.js"
      ∈ (Demo.resolve Demo.registry Demo.app
           (Some ["/app/readme.md"; "/app/src/foo.js"])
           (Some ["/app/widgets/build.json"])).1.
Proof.
  assert (@basename Posix.path "/app/src/foo.js" ≠ "build.json") as Hb
    by discriminate.
  split; [exact Hb|].
  apply (@module_file_targeted_iff Posix.path Demo.shifter Demo.registry
           Demo.app _ _ _ Hb).
  split; [right; left|]. split; [reflexivity|]. split; [discriminate|].
  exists Demo.foo. reflexivity.
Defined.

Lemma registry_frame_witness :
  "other" ≠ bundleName Demo.app
  ∧ (Demo.resolve Demo.registry Demo.app (Some ["/app/src/foo.js"]) None).2
      !! "other" = None
  ∧ bundleMeta
      (Demo.resolve Demo.registry Demo.app (Some ["/app/readme.md"]) None).2
      "app" !! "/app/readme.md" = None.
Proof.
  destruct (@registry_frame Posix.path Demo.shifter Demo.registry Demo.app
              (Some ["/app/src/foo.js"]) None) as [Hother _].
  destruct (@registry_frame Posix.path Demo.shifter Demo.registry Demo.app
              (Some ["/app/readme.md"]) None) as [_ Hkey].
  assert ("other" ≠ bundleName Demo.app) as Hne by discriminate.
  split; [exact Hne|]. split.
  - etransitivity; [exact (Hother "other" Hne)|reflexivity].
  - etransitivity; [apply (Hkey "/app/readme.md")|reflexivity].
    + right. discriminate.
    + left. cbn. apply not_elem_of_nil.
Defined.

Lemma registry_only_grows_witness :
  is_Some (bundleMeta Demo.registry "app" !! "/app/widgets/build.json")
  ∧ is_Some
      (bundleMeta
         (Demo.resolve Demo.registry Demo.app (Some ["/app/src/foo.js"])
                       (Some ["/app/package.json"])).2
         "app" !! "/app/widgets/build.json").
Proof.
  assert (is_Some (bundleMeta Demo.registry "app" !! "/app/widgets/build.json"))
    as Hs by (exists Demo.widgets; reflexivity).
  split; [exact Hs|].
  exact (proj2 (@registry_only_grows Posix.path Demo.shifter Demo.registry
                  Demo.app _ _ "app" "/app/widgets/build.json") Hs).
Defined.

Lemma nothing_valid_nothing_done_witness :
  Demo.resolve ∅ Demo.app (Some ["/app/src/bad.js"; "/app/readme.md"])
               (Some ["/app/broken/build.json"])
  = ([], ∅).
Proof.
  apply (@nothing_valid_nothing_done Posix.path Demo.shifter).
  - intros f Hf _ _. cbn in Hf.
    rewrite !elem_of_cons, elem_of_nil in Hf.
    destruct Hf as [->|[->|[]]]; reflexivity.
  - intros d Hd _. cbn in Hd.
    rewrite !elem_of_cons, elem_of_nil in Hd.
    destruct Hd as [->|[]]. reflexivity.
Defined.

Lemma targets_monotone_witness :
  ["/app/src/foo.js"] ⊆ ["/app/widgets/a.js"; "/app/src/foo.js"]
  ∧ ([] : list string) ⊆ ["/app/widgets/build.json"]
  ∧ (Demo.resolve ∅ Demo.app (Some ["/app/src/foo.js"]) (Some [])).1
    ⊆ (Demo.resolve Demo.registry Demo.app
         (Some ["/app/widgets/a.js"; "/app/src/foo.js"])
         (Some ["/app/widgets/build.json"])).1.
Proof.
  assert (["/app/src/foo.js"] ⊆ ["/app/widgets/a.js"; "/app/src/foo.js"]) as Hm.
  { intros x Hx. right. exact Hx. }
  assert (([] : list string) ⊆ ["/app/widgets/build.json"]) as Hj.
  { intros x Hx. apply elem_of_nil in Hx. destruct Hx. }
  split; [exact Hm|]. split; [exact Hj|].
  exact (@targets_monotone Posix.path Demo.shifter ∅ Demo.registry Demo.app
           _ _ _ _ Hm Hj).
Defined.

Lemma targets_ignore_repetitions_witness :
  (Demo.resolve ∅ Demo.app
     (Some ["/app/src/foo.js"; "/app/src/foo.js"])
     (Some ["/app/widgets/build.json"])).1
  = (Demo.resolve ∅ Demo.app
       (Some ["/app/src/foo.js"])
       (Some ["/app/widgets/build.json"; "/app/widgets/build.json"])).1.
Proof.
  apply (@targets_ignore_repetitions Posix.path Demo.shifter).
  - intros x. rewrite !elem_of_cons, elem_of_nil. tauto.
  - intros x. rewrite !elem_of_cons, elem_of_nil. tauto.
Defined.

Lemma views_cover_every_build_witness :
  ∃ entry,
    filterMeta (Some clientFilter) (bundleMeta Demo.registry "app")
      !! "/app/widgets/build.json" = Some entry
    ∧ builds entry !! "widgets" = Some (mkBuild (Some (mkConfig (Some "client")))).
Proof.
  destruct (views_cover_every_build (bundleMeta Demo.registry "app")
              "/app/widgets/build.json" Demo.widgets "widgets"
              (mkBuild (Some (mkConfig (Some "client"))))
              eq_refl eq_refl) as [[Hserver|Hclient] _].
  - destruct Hserver as (entry & Hentry & Hbuild).
    apply filterMeta_entry in Hentry as (m & Hm & _ & ->).
    cbn in Hbuild. apply passing_lookup in Hbuild as [_ Hp].
    injection Hm as <-. discriminate Hp.
  - exact Hclient.
Defined.

Lemma registering_filtered_out_module_witness :
  @_getLoaderData Demo.builder
    (_register Demo.registry "app" "/app/src/backend.js" Fixtures.backend)
    "app" (Some clientFilter)
  = @_getLoaderData Demo.builder Demo.registry "app" (Some clientFilter).
Proof.
  apply (@registering_filtered_out_module Demo.builder).
  - intros v bd Hv.
    change (builds Fixtures.backend)
      with ({[ "backend" := mkBuild (Some (mkConfig (Some "server"))) ]}
              : gmap string Build) in Hv.
    apply lookup_singleton_Some in Hv as [_ <-]. reflexivity.
  - intros old v bd Hold. vm_compute in Hold. discriminate Hold.
Defined.

Lemma write_failure_stops_pipeline_witness :
  ∃ data,
    @_createClientLoaderData Demo.builder Demo.registry Demo.app "loader-app"
    = Present data
    ∧ status (Fixtures.runFailing Demo.loaded Demo.app ["/app/src/foo.js"])
      = Failed "EACCES"
    ∧ effects (Fixtures.runFailing Demo.loaded Demo.app ["/app/src/foo.js"])
      = [WriteFileInBundle "app" "loader-app.js" (js data)].
Proof.
  destruct (@_createClientLoaderData Demo.builder Demo.registry Demo.app
              "loader-app") as [why|data] eqn:E.
  - vm_compute in E. discriminate E.
  - exists data. split; [reflexivity|].
    destruct (@write_failure_stops_pipeline Posix.path Demo.shifter Demo.builder
                Fixtures.failingApi Demo.loaded Demo.app ["/app/src/foo.js"]
                data "EACCES" E eq_refl) as (Hstatus & Heffects & _).
    split; [exact Hstatus|exact Heffects].
Defined.

Lemma written_meta_module_is_shifted_witness :
  ∃ data opts,
    @_createClientLoaderData Demo.builder Demo.registry Demo.app "loader-app"
    = Present data
    ∧ "/app/build/loader-app.js" ≠ ""
    ∧ effects (Fixtures.runDemo Demo.loaded Demo.app ["/app/src/foo.js"])
      = [WriteFileInBundle "app" "loader-app.js" (js data);
         ShiftFiles ["/app/src/foo.js"; "/app/build/loader-app.js"] opts].
Proof.
  destruct (@_createClientLoaderData Demo.builder Demo.registry Demo.app
              "loader-app") as [why|data] eqn:E.
  - vm_compute in E. discriminate E.
  - assert ("/app/build/loader-app.js" ≠ "") as Hp by discriminate.
    destruct (@written_meta_module_is_shifted Posix.path Demo.shifter
                Demo.builder Demo.api Demo.loaded Demo.app ["/app/src/foo.js"]
                data "/app/build/loader-app.js" E eq_refl Hp)
      as (opts & Heffects & _).
    exists data, opts. split; [reflexivity|]. split; [exact Hp|exact Heffects].
Defined.

Lemma no_client_view_no_write_witness :
  @_createClientLoaderData Demo.builder Fixtures.serverOnly Demo.app "loader-app"
  = Absent Js.undefined
  ∧ ∃ opts,
      effects (Fixtures.runDemo Fixtures.serverPlugin Demo.app
                 ["/app/src/backend.js"])
      = [ShiftFiles ["/app/src/backend.js"] opts].
Proof.
  assert (@_createClientLoaderData Demo.builder Fixtures.serverOnly Demo.app
            "loader-app" = Absent Js.undefined) as Hc by reflexivity.
  split; [exact Hc|].
  destruct (@no_client_view_no_write Posix.path Demo.shifter Demo.builder
              Demo.api Fixtures.serverPlugin Demo.app ["/app/src/backend.js"]
              Js.undefined Hc) as (opts & Heffects & _).
  exists opts. exact Heffects.
Defined.

(** The default plugin outside debug mode, and a plugin with custom
    arguments and a pattern as filter in debug mode. *)
Example scenario_constructor :
  describeArgs (@PluginClass Fixtures.substrings false None)
  = ["--no-global-config"; "--no-coverage"; "--no-lint"; "--silent"; "--quiet"]
  ∧ let config :=
      {| cfgCache := Some false; cfgArgs := Some ["--lint-stderr"];
         cfgLint := true; cfgCoverage := false;
         cfgSilent := false; cfgQuiet := true;
         cfgCssproc := None;
         cfgFilter := Some (@RegexFilter Fixtures.substrings "src/") |} in
    let self := @PluginClass Fixtures.substrings true (Some config) in
    describeArgs self = ["--no-global-config"; "--no-coverage"; "--quiet"; "--lint-stderr"]
    ∧ optCache (options self) = false
    ∧ (keep ← optFilter (options self); Some (keep Demo.app "src/foo.js"))
      = Some true
    ∧ (keep ← optFilter (options self); Some (keep Demo.app "build/foo.js"))
      = Some false.
Proof. by vm_compute. Qed.

(** ** Where the code and the claims part *)

(** C1: the two directory tests of the inner loop are tests on the text of
    the paths, and on these inputs they depart from the directories that the
    comments of the loop name.  With the build directory [/app/build], the
    modified file [/app/builder/x.js] lies under the directory of the valid
    descriptor [/app/builder/build.json] and outside the build directory,
    yet the descriptor is not a target, because the text [/app/build] occurs
    in the path.  And the modified file [/app/widgets-old/a.js], which does
    not lie under [/app/widgets], makes the valid descriptor
    [/app/widgets/build.json] a target, because the path starts with the
    text [/app/widgets]. *)
Theorem descriptor_tests_are_textual :
  let resolve :=
    @_buildsInBundle Posix.path Fixtures.descriptors ∅ Demo.app in
  (buildDirectory Demo.app = "/app/build"
   ∧ is_Some (@_checkBuildFile Fixtures.descriptors "/app/builder/build.json")
   ∧ @extname Posix.path "/app/builder/x.js" = ".js"
   ∧ liesUnder "/app/builder/x.js"
               (@dirname Posix.path "/app/builder/build.json") = true
   ∧ liesUnder "/app/builder/x.js" (buildDirectory Demo.app) = false
   ∧ (resolve (Some ["/app/builder/x.js"])
              (Some ["/app/builder/build.json"])).1 = [])
  ∧ (is_Some (@_checkBuildFile Fixtures.descriptors "/app/widgets/build.json")
     ∧ liesUnder "/app/widgets-old/a.js"
                 (@dirname Posix.path "/app/widgets/build.json") = false
     ∧ "/app/widgets/build.json" ≠ "/app/widgets-old/a.js"
     ∧ (resolve (Some ["/app/widgets-old/a.js"])
                (Some ["/app/widgets/build.json"])).1
       = ["/app/widgets/build.json"]).
Proof.
  cbn zeta. split.
  - split; [reflexivity|]. split; [by eexists|].
    repeat split; by vm_compute.
  - split; [by eexists|]. split; [by vm_compute|].
    split; [discriminate|]. by vm_compute.
Qed.


